(** * The Athena trading bot: the cycle orchestrator of [bot/core/bot_manager.py]

    A shallow embedding of [BotManager]: its configuration and state, the
    signal generator, the risk gate, the trading cycle with its error
    handler, start-up and tear-down.

    Conventions.
    - Python numbers (RSI values, thresholds, percentages) are exact rationals
      [Q]; [/] raises [ZeroDivisionError] on a zero divisor, as in Python.
    - A method of [BotManager] is a computation in the monad [M]: it threads
      the object [self] and the trace of what the method did to the outside
      world (logger records, awaited calls), and either returns or raises.
    - Awaited calls on the three collaborators and the placeholder methods of
      the class get their results from an environment [Env], one per call
      of a public method: every awaited call of a collaborator may raise.
    - The class [MetricsCollector] is not part of the sources: its error
      counter is modelled from the specification, and whether one of its
      calls returns or raises comes from the environment like the rest. *)

From Stdlib Require Import QArith Lqa ZArith.
From stdpp Require Import gmap strings list.

Local Open Scope Z_scope.

(** ** Python values *)

(** Exceptions, all of them instances of Python's [Exception]. *)
Inductive exn : Type :=
| RuntimeError (msg : string)
| ZeroDivisionError
| IndexError
| AttributeError
| CollaboratorError (detail : string).

(** The result of a call: a value, or a raised exception. *)
Inductive Res (A : Type) : Type :=
| Ok (a : A)
| Raise (e : exn).
Arguments Ok {A} a.
Arguments Raise {A} e.

Definition is_ok {A} (r : Res A) : bool :=
  match r with Ok _ => true | Raise _ => false end.

(** [x < y] on numbers. *)
Definition Qltb (x y : Q) : bool := negb (Qle_bool y x).

(** [x / y]: true division, [ZeroDivisionError] when [y == 0]. *)
Definition py_div (x y : Q) : Res Q :=
  if Qeq_bool y 0 then Raise ZeroDivisionError else Ok (x / y)%Q.

(** ** Configuration: [config['bot']] *)

Record EntryConfig := { rsi_low : Q }.
Record ExitConfig := { rsi_high : Q }.
Record StrategyConfig := {
  type : string;
  entry : EntryConfig;
  exit : ExitConfig
}.
Record RiskConfig := {
  global_exposure_cap_pct : Q;
  daily_loss_cap_pct : Q
}.
Record OpsConfig := { ntp_required : bool }.
Record ExchangeConfig := { symbols : list string }.
Record DataConfig := { database : string }.
Record Config := {
  bot_mode : string;
  exchanges : list ExchangeConfig;
  data : DataConfig;
  strategy : StrategyConfig;
  risk : RiskConfig;
  ops : OpsConfig
}.

(** ** Market data and signals *)

(** The per-symbol dictionary of a snapshot, by the two keys the bot reads.
    The empty dictionary is [no_data]. *)
Record SymbolData := {
  rsi : option Q;
  timestamp : option Z
}.
Definition no_data : SymbolData := {| rsi := None; timestamp := None |}.

Abbreviation MarketData := (gmap string SymbolData).

Inductive Action : Set := buy | sell.

(** The two reason texts, with the value they interpolate:
    [f"RSI oversold: {rsi}"] and [f"RSI overbought: {rsi}"]. *)
Inductive SignalReason : Type :=
| RsiOversold (value : Q)
| RsiOverbought (value : Q).

Record Signal := {
  symbol : string;
  action : Action;
  signal_strength : Q;
  signal_timestamp : option Z;
  reason : SignalReason
}.

(** ** Risk assessment *)

(** The two gate messages, with the value they interpolate. *)
Inductive RiskReason : Type :=
| ExposureTooHigh (current_exposure : Q)
| DailyLossLimitReached (daily_pnl : Q).

Record RiskAssessment := {
  can_trade : bool;
  reasons : list RiskReason;
  current_exposure : Q;
  daily_pnl : Q;
  approved_signals : list Signal
}.

(** ** Collaborators *)

Record ExchangeManager := { exchanges_config : list ExchangeConfig }.
Record DataManager := { data_config : DataConfig }.

(** The dictionary [run_cycle] hands to [update_metrics]. *)
Record CycleReport := {
  cycle_completed : bool;
  signals_generated : nat;
  trades_executed : nat
}.

(** Modelled from the spec: the class [MetricsCollector] of
    [bot/monitoring/metrics_collector.py] is missing.  The spec's MetricsPort
    "records cycle outcomes, error counters" through [record_cycle(outcome)],
    [increment_error_count()] and [get_error_count() -> integer]: the
    collector holds an error counter and the reports recorded so far. *)
Record MetricsCollector := {
  ops_config : OpsConfig;
  error_count : Z;
  recorded : list CycleReport
}.

(** Modelled from the spec: a new collector has counted no error. *)
Definition new_MetricsCollector (o : OpsConfig) : MetricsCollector :=
  {| ops_config := o; error_count := 0; recorded := [] |}.

(** Modelled from the spec: [increment_error_count()]. *)
Definition increment_error_count (m : MetricsCollector) : MetricsCollector :=
  {| ops_config := ops_config m;
     error_count := error_count m + 1;
     recorded := recorded m |}.

(** Modelled from the spec: [get_error_count() -> integer]. *)
Definition get_error_count (m : MetricsCollector) : Z := error_count m.

(** Modelled from the spec: [record_cycle(outcome)], which the source calls
    [update_metrics].  The report is kept, and "a successful cycle resets
    [consecutive_error_count] to 0": the report of a completed cycle puts the
    error counter back to 0. *)
Definition update_metrics (r : CycleReport) (m : MetricsCollector) : MetricsCollector :=
  {| ops_config := ops_config m;
     error_count := if cycle_completed r then 0 else error_count m;
     recorded := recorded m ++ [r] |}.

(** ** The object *)

Record BotManager := {
  config : Config;
  exchange_manager : option ExchangeManager;
  data_manager : option DataManager;
  metrics_collector : option MetricsCollector;
  is_initialized : bool;
  is_running : bool;
  emergency_stop : bool;
  mode : string
}.

(** ** The outside world *)

Inductive Level : Set := INFO | WARNING | ERROR | CRITICAL.

(** Logger records, by the line of the source that writes them. *)
Inductive LogMsg : Type :=
| MsgBotCreated (m : string)
| MsgInitializing
| MsgInitialized
| MsgInitializeFailed (e : exn)
| MsgCycleSkipped
| MsgCycleFailed (e : exn)
| MsgPaperTrading
| MsgLiveTrading
| MsgTradeFailed (s : Signal) (e : exn)
| MsgExecutingSignal (s : Signal)
| MsgSafetyChecks
| MsgSafetyChecksDone
| MsgHandlingCycleError (e : exn)
| MsgTooManyErrors
| MsgCleaningUp
| MsgCleanedUp.

(** Awaited calls that leave the object. *)
Inductive Call : Type :=
| ExchangeInitialize
| ExchangeTestConnections
| ExchangeCleanup
| DataInitialize
| DataTestConnection
| DataGetLatestData
| DataCleanup
| MetricsInitialize
| MetricsUpdateMetrics (r : CycleReport)
| MetricsIncrementErrorCount
| MetricsGetErrorCount
| MetricsCleanup
| CalculateCurrentExposure
| CalculateDailyPnl
| ExecuteSingleTrade (s : Signal).

Inductive Event : Type :=
| Logged (lvl : Level) (msg : LogMsg)
| Called (c : Call).

(** How the world answers during one call of a public method: [None] is a
    normal return.  The last three fields are the placeholder methods of the
    class ([_calculate_current_exposure], [_calculate_daily_pnl],
    [_execute_single_trade]), which a subclass fills in. *)
Record Env := {
  exchange_initialize : option exn;
  exchange_test_connections : Res bool;
  exchange_cleanup : option exn;
  data_initialize : option exn;
  data_test_connection : Res bool;
  data_get_latest_data : Res MarketData;
  data_cleanup : option exn;
  metrics_initialize : option exn;
  metrics_update_metrics : option exn;
  metrics_increment_error_count : option exn;
  metrics_get_error_count : option exn;
  metrics_cleanup : option exn;
  calculate_current_exposure : Q;
  calculate_daily_pnl : Q;
  execute_single_trade : Signal -> option exn
}.

(** ** The monad of methods *)

Record State := {
  self : BotManager;
  trace : list Event
}.

Definition M (A : Type) : Type := State -> Res A * State.

Definition ret {A} (a : A) : M A := fun st => (Ok a, st).

Definition raise {A} (e : exn) : M A := fun st => (Raise e, st).

Definition bind {A B} (m : M A) (k : A -> M B) : M B :=
  fun st =>
    match m st with
    | (Ok a, st') => k a st'
    | (Raise e, st') => (Raise e, st')
    end.

Notation "'let*' x ':=' m 'in' k" := (bind m (fun x => k))
  (at level 10, x binder, m at level 200, k at level 200).

(** [try: body except Exception as e: handler e]. *)
Definition try_except {A} (body : M A) (handler : exn -> M A) : M A :=
  fun st =>
    match body st with
    | (Ok a, st') => (Ok a, st')
    | (Raise e, st') => handler e st'
    end.

Definition lift {A} (r : Res A) : M A := fun st => (r, st).

Definition gets {A} (f : BotManager -> A) : M A := fun st => (Ok (f (self st)), st).

Definition modify (f : BotManager -> BotManager) : M unit :=
  fun st => (Ok tt, {| self := f (self st); trace := trace st |}).

Definition emit (ev : Event) : M unit :=
  fun st => (Ok tt, {| self := self st; trace := trace st ++ [ev] |}).

Definition log (lvl : Level) (msg : LogMsg) : M unit := emit (Logged lvl msg).

(** An awaited call that returns nothing: recorded, then its outcome. *)
Definition await (c : Call) (outcome : option exn) : M unit :=
  let* _ := emit (Called c) in
  match outcome with
  | None => ret tt
  | Some e => raise e
  end.

(** An awaited call that returns a value. *)
Definition await_value {A} (c : Call) (outcome : Res A) : M A :=
  let* _ := emit (Called c) in lift outcome.

(** Attribute assignments [self.x = v]. *)
Definition set_exchange_manager (v : option ExchangeManager) (b : BotManager) : BotManager :=
  {| config := config b; exchange_manager := v; data_manager := data_manager b;
     metrics_collector := metrics_collector b; is_initialized := is_initialized b;
     is_running := is_running b; emergency_stop := emergency_stop b; mode := mode b |}.

Definition set_data_manager (v : option DataManager) (b : BotManager) : BotManager :=
  {| config := config b; exchange_manager := exchange_manager b; data_manager := v;
     metrics_collector := metrics_collector b; is_initialized := is_initialized b;
     is_running := is_running b; emergency_stop := emergency_stop b; mode := mode b |}.

Definition set_metrics_collector (v : option MetricsCollector) (b : BotManager) : BotManager :=
  {| config := config b; exchange_manager := exchange_manager b; data_manager := data_manager b;
     metrics_collector := v; is_initialized := is_initialized b;
     is_running := is_running b; emergency_stop := emergency_stop b; mode := mode b |}.

Definition set_is_initialized (v : bool) (b : BotManager) : BotManager :=
  {| config := config b; exchange_manager := exchange_manager b; data_manager := data_manager b;
     metrics_collector := metrics_collector b; is_initialized := v;
     is_running := is_running b; emergency_stop := emergency_stop b; mode := mode b |}.

Definition set_emergency_stop (v : bool) (b : BotManager) : BotManager :=
  {| config := config b; exchange_manager := exchange_manager b; data_manager := data_manager b;
     metrics_collector := metrics_collector b; is_initialized := is_initialized b;
     is_running := is_running b; emergency_stop := v; mode := mode b |}.

(** [self.data_manager.m(...)]: [None] has no attribute [m]. *)
Definition the_data_manager : M DataManager :=
  let* d := gets data_manager in
  match d with Some x => ret x | None => raise AttributeError end.

Definition the_exchange_manager : M ExchangeManager :=
  let* d := gets exchange_manager in
  match d with Some x => ret x | None => raise AttributeError end.

Definition the_metrics_collector : M MetricsCollector :=
  let* d := gets metrics_collector in
  match d with Some x => ret x | None => raise AttributeError end.

(** ** [BotManager.__init__] *)

Definition __init__ (c : Config) : State :=
  {| self := {| config := c;
                exchange_manager := None;
                data_manager := None;
                metrics_collector := None;
                is_initialized := false;
                is_running := false;
                emergency_stop := false;
                mode := bot_mode c |};
     trace := [Logged INFO (MsgBotCreated (bot_mode c))] |}.

(** ** [BotManager._mean_reversion_signal] *)

Definition _mean_reversion_signal (symbol : string) (data : SymbolData)
    (config : StrategyConfig) : Res (option Signal) :=
  match rsi data with
  | None => Ok None
  | Some rsi =>
      if Qltb rsi (rsi_low (entry config)) then
        match py_div (rsi_low (entry config) - rsi) (rsi_low (entry config)) with
        | Raise e => Raise e
        | Ok strength =>
            Ok (Some {| symbol := symbol;
                        action := buy;
                        signal_strength := strength;
                        signal_timestamp := timestamp data;
                        reason := RsiOversold rsi |})
        end
      else if Qltb (rsi_high (exit config)) rsi then
        match py_div (rsi - rsi_high (exit config)) (100 - rsi_high (exit config)) with
        | Raise e => Raise e
        | Ok strength =>
            Ok (Some {| symbol := symbol;
                        action := sell;
                        signal_strength := strength;
                        signal_timestamp := timestamp data;
                        reason := RsiOverbought rsi |})
        end
      else Ok None
  end.

(** ** [BotManager._generate_signals] *)

(** The [for symbol in ...] loop, [signals] being the list built so far. *)
Fixpoint generate_loop (strategy_config : StrategyConfig) (market_data : MarketData)
    (todo : list string) (signals : list Signal) : Res (list Signal) :=
  match todo with
  | [] => Ok signals
  | symbol :: todo' =>
      let symbol_data := default no_data (market_data !! symbol) in
      if String.eqb (type strategy_config) "mean_reversion" then
        match _mean_reversion_signal symbol symbol_data strategy_config with
        | Raise e => Raise e
        | Ok (Some signal) =>
            generate_loop strategy_config market_data todo' (signals ++ [signal])
        | Ok None => generate_loop strategy_config market_data todo' signals
        end
      else generate_loop strategy_config market_data todo' signals
  end.

Definition _generate_signals (market_data : MarketData) : M (list Signal) :=
  let signals := [] in
  let* strategy_config := gets (fun b => strategy (config b)) in
  let* exs := gets (fun b => exchanges (config b)) in
  match exs with
  | [] => raise IndexError
  | first :: _ => lift (generate_loop strategy_config market_data (symbols first) signals)
  end.

(** The call the loop body makes for [symbol]. *)
Definition symbol_signal (strategy_config : StrategyConfig) (market_data : MarketData)
    (symbol : string) : Res (option Signal) :=
  _mean_reversion_signal symbol (default no_data (market_data !! symbol)) strategy_config.

(** What a call that returned hands to [if signal: signals.append(signal)]. *)
Definition returned {A} (r : Res (option A)) : option A :=
  match r with Ok o => o | Raise _ => None end.

(** ** The placeholder methods *)

Definition _calculate_current_exposure (env : Env) : M Q :=
  await_value CalculateCurrentExposure (Ok (calculate_current_exposure env)).

Definition _calculate_daily_pnl (env : Env) : M Q :=
  await_value CalculateDailyPnl (Ok (calculate_daily_pnl env)).

Definition _execute_single_trade (env : Env) (signal : Signal) : M unit :=
  let* _ := log INFO (MsgExecutingSignal signal) in
  await (ExecuteSingleTrade signal) (execute_single_trade env signal).

(** The placeholders with the bodies the source gives them: both portfolio
    queries return [0.0], a trade only writes its log record. *)
Definition as_written (env : Env) : Env :=
  {| exchange_initialize := exchange_initialize env;
     exchange_test_connections := exchange_test_connections env;
     exchange_cleanup := exchange_cleanup env;
     data_initialize := data_initialize env;
     data_test_connection := data_test_connection env;
     data_get_latest_data := data_get_latest_data env;
     data_cleanup := data_cleanup env;
     metrics_initialize := metrics_initialize env;
     metrics_update_metrics := metrics_update_metrics env;
     metrics_increment_error_count := metrics_increment_error_count env;
     metrics_get_error_count := metrics_get_error_count env;
     metrics_cleanup := metrics_cleanup env;
     calculate_current_exposure := 0%Q;
     calculate_daily_pnl := 0%Q;
     execute_single_trade := fun _ => None |}.

(** ** [BotManager._assess_risks] *)

Definition _assess_risks (env : Env) (signals : list Signal) (market_data : MarketData)
    : M RiskAssessment :=
  let* risk_config := gets (fun b => risk (config b)) in
  let can_trade0 := true in
  let reasons0 : list RiskReason := [] in
  let* current_exposure := _calculate_current_exposure env in
  let '(can_trade1, reasons1) :=
    if Qltb (global_exposure_cap_pct risk_config) current_exposure
    then (false, reasons0 ++ [ExposureTooHigh current_exposure])
    else (can_trade0, reasons0) in
  let* daily_pnl := _calculate_daily_pnl env in
  let '(can_trade2, reasons2) :=
    if Qltb daily_pnl (- daily_loss_cap_pct risk_config)%Q
    then (false, reasons1 ++ [DailyLossLimitReached daily_pnl])
    else (can_trade1, reasons1) in
  ret {| can_trade := can_trade2;
         reasons := reasons2;
         current_exposure := current_exposure;
         daily_pnl := daily_pnl;
         approved_signals := if can_trade2 then signals else [] |}.

(** ** [BotManager._execute_trades] *)

(** The [for signal in risk_assessment['approved_signals']] loop. *)
Fixpoint execute_loop (env : Env) (todo : list Signal) : M unit :=
  match todo with
  | [] => ret tt
  | signal :: todo' =>
      let* _ := try_except (_execute_single_trade env signal)
                  (fun e => log ERROR (MsgTradeFailed signal e)) in
      execute_loop env todo'
  end.

Definition _execute_trades (env : Env) (signals : list Signal)
    (risk_assessment : RiskAssessment) : M unit :=
  let* m := gets mode in
  let* _ := if String.eqb m "paper" then log INFO MsgPaperTrading
            else log INFO MsgLiveTrading in
  execute_loop env (approved_signals risk_assessment).

(** ** [BotManager._perform_safety_checks] *)

Definition _perform_safety_checks (env : Env) : M unit :=
  let* _ := log INFO MsgSafetyChecks in
  let* ntp := gets (fun b => ntp_required (ops (config b))) in
  let* _ := if ntp then ret tt else ret tt in
  let* _ := the_exchange_manager in
  let* _ := await_value ExchangeTestConnections (exchange_test_connections env) in
  let* _ := the_data_manager in
  let* _ := await_value DataTestConnection (data_test_connection env) in
  log INFO MsgSafetyChecksDone.

(** ** [BotManager._handle_cycle_error] *)

(** Both calls on the collector are awaited outside any [try]: when one of
    them raises, the exception leaves the handler. *)
Definition _handle_cycle_error (env : Env) (error : exn) : M unit :=
  let* _ := log ERROR (MsgHandlingCycleError error) in
  let* mc := the_metrics_collector in
  let* _ := await MetricsIncrementErrorCount (metrics_increment_error_count env) in
  let* _ := modify (set_metrics_collector (Some (increment_error_count mc))) in
  let* mc' := the_metrics_collector in
  let* error_count :=
    await_value MetricsGetErrorCount
      (match metrics_get_error_count env with
       | Some e => Raise e
       | None => Ok (get_error_count mc')
       end) in
  if 5 <? error_count then
    let* _ := modify (set_emergency_stop true) in
    log CRITICAL MsgTooManyErrors
  else ret tt.

(** ** [BotManager.run_cycle] *)

(** The [try] block of [run_cycle]. *)
Definition run_cycle_try (env : Env) : M unit :=
  let* _ := the_data_manager in
  let* market_data := await_value DataGetLatestData (data_get_latest_data env) in
  let* signals := _generate_signals market_data in
  let* risk_assessment := _assess_risks env signals market_data in
  let* _ := if can_trade risk_assessment
            then _execute_trades env signals risk_assessment
            else ret tt in
  let* mc := the_metrics_collector in
  let report := {| cycle_completed := true;
                   signals_generated := length signals;
                   trades_executed := 0 |} in
  let* _ := await (MetricsUpdateMetrics report) (metrics_update_metrics env) in
  modify (set_metrics_collector (Some (update_metrics report mc))).

Definition not_initialized : exn := RuntimeError "Le bot n'est pas initialisé".

Definition run_cycle (env : Env) : M unit :=
  let* initialized := gets is_initialized in
  if negb initialized then raise not_initialized
  else
    let* stop := gets emergency_stop in
    if stop then log WARNING MsgCycleSkipped
    else
      try_except (run_cycle_try env)
        (fun e =>
           let* _ := log ERROR (MsgCycleFailed e) in
           _handle_cycle_error env e).

(** ** [BotManager.initialize] *)

Definition initialize (env : Env) : M unit :=
  let* _ := log INFO MsgInitializing in
  try_except
    (let* c := gets config in
     let* _ := modify (set_exchange_manager
                         (Some {| exchanges_config := exchanges c |})) in
     let* _ := await ExchangeInitialize (exchange_initialize env) in
     let* _ := modify (set_data_manager (Some {| data_config := data c |})) in
     let* _ := await DataInitialize (data_initialize env) in
     let* _ := modify (set_metrics_collector (Some (new_MetricsCollector (ops c)))) in
     let* _ := await MetricsInitialize (metrics_initialize env) in
     let* _ := _perform_safety_checks env in
     let* _ := modify (set_is_initialized true) in
     log INFO MsgInitialized)
    (fun e =>
       let* _ := log ERROR (MsgInitializeFailed e) in
       raise e).

(** ** [BotManager.cleanup] *)

Definition cleanup (env : Env) : M unit :=
  let* _ := log INFO MsgCleaningUp in
  let* em := gets exchange_manager in
  let* _ := if em is Some _ then await ExchangeCleanup (exchange_cleanup env)
            else ret tt in
  let* dm := gets data_manager in
  let* _ := if dm is Some _ then await DataCleanup (data_cleanup env)
            else ret tt in
  let* mc := gets metrics_collector in
  let* _ := if mc is Some _ then await MetricsCleanup (metrics_cleanup env)
            else ret tt in
  log INFO MsgCleanedUp.

(** ** Histories of one object *)

(** What a caller can do with a [BotManager]. *)
Inductive Op : Type :=
| OpInitialize (env : Env)
| OpRunCycle (env : Env)
| OpHandleCycleError (env : Env) (error : exn)
| OpCleanup (env : Env).

Definition step (op : Op) : M unit :=
  match op with
  | OpInitialize env => initialize env
  | OpRunCycle env => run_cycle env
  | OpHandleCycleError env error => _handle_cycle_error env error
  | OpCleanup env => cleanup env
  end.

(** The results of a sequence of calls, and the state it leaves. *)
Fixpoint run (ops : list Op) (st : State) : list (Res unit) * State :=
  match ops with
  | [] => ([], st)
  | op :: ops' =>
      let '(r, st') := step op st in
      let '(rs, st'') := run ops' st' in
      (r :: rs, st'')
  end.

(** Call number [i] of the history [ops], started on [st], was an
    [initialize()] that returned. *)
Definition initialize_completed (ops : list Op) (st : State) (i : nat) : Prop :=
  (exists env, ops !! i = Some (OpInitialize env)) /\ fst (run ops st) !! i = Some (Ok tt).

(** Consecutive calls of [run_cycle], one environment each. *)
Definition cycles (envs : list Env) (st : State) : State :=
  snd (run (OpRunCycle <$> envs) st).

(** A stage of the pipeline raises in the cycle run on [st] under [env]. *)
Definition cycle_fails (env : Env) (st : State) : Prop :=
  exists e, fst (run_cycle_try env st) = Raise e.

(** Every one of the consecutive cycles [envs], started on [st], has a stage
    that raises. *)
Fixpoint all_cycles_fail (envs : list Env) (st : State) : Prop :=
  match envs with
  | [] => True
  | env :: envs' => cycle_fails env st /\ all_cycles_fail envs' (snd (run_cycle env st))
  end.

(** The collector answers both calls of the error handler: a failure of the
    cycle run under [env] gets recorded. *)
Definition counter_answers (env : Env) : Prop :=
  metrics_increment_error_count env = None /\ metrics_get_error_count env = None.

(** The object of an initialized bot has its collaborators. *)
Definition collaborators_set (b : BotManager) : Prop :=
  is_initialized b = true ->
  is_Some (exchange_manager b) /\ is_Some (data_manager b) /\ is_Some (metrics_collector b).

(** The error count the bot reads from its collector. *)
Definition recorded_errors (b : BotManager) : option Z :=
  get_error_count <$> metrics_collector b.

(** What a call running from [st] to [st'] added to the trace. *)
Definition events_since (st st' : State) : list Event :=
  drop (length (trace st)) (trace st').

Definition the_call (ev : Event) : option Call :=
  match ev with Called c => Some c | Logged _ _ => None end.

(** The awaited calls among the events. *)
Definition calls_of (evs : list Event) : list Call := omap the_call evs.

(** The release calls [cleanup] has to make on the object [b], in the order
    of the source, each with its outcome under [env]. *)
Definition releases (env : Env) (b : BotManager) : list (Call * option exn) :=
  (if exchange_manager b is Some _ then [(ExchangeCleanup, exchange_cleanup env)] else [])
  ++ (if data_manager b is Some _ then [(DataCleanup, data_cleanup env)] else [])
  ++ (if metrics_collector b is Some _ then [(MetricsCleanup, metrics_cleanup env)] else []).

(** Calls made one after the other up to the first that raises: the calls
    made, and how the sequence ends. *)
Fixpoint until_failure (todo : list (Call * option exn)) : list Call * Res unit :=
  match todo with
  | [] => ([], Ok tt)
  | (c, None) :: todo' => let '(cs, r) := until_failure todo' in (c :: cs, r)
  | (c, Some e) :: _ => ([c], Raise e)
  end.

(** ** Sample values *)

Definition sample_config : Config :=
  {| bot_mode := "paper";
     exchanges := [ {| symbols := ["BTC/USDT"; "ETH/USDT"; "SOL/USDT"; "ADA/USDT"] |} ];
     data := {| database := "athena" |};
     strategy := {| type := "mean_reversion";
                    entry := {| rsi_low := 30 |};
                    exit := {| rsi_high := 70 |} |};
     risk := {| global_exposure_cap_pct := 20; daily_loss_cap_pct := 5 |};
     ops := {| ntp_required := true |} |}.

(** BTC oversold, ETH overbought, SOL neutral, ADA missing. *)
Definition sample_market : MarketData :=
  <["BTC/USDT" := {| rsi := Some 25%Q; timestamp := Some 1700000000 |}]>
    (<["ETH/USDT" := {| rsi := Some 75%Q; timestamp := Some 1700000000 |}]>
       (<["SOL/USDT" := {| rsi := Some 50%Q; timestamp := None |}]> ∅)).

(** Every collaborator answers; the placeholders are the source's. *)
Definition calm : Env :=
  {| exchange_initialize := None;
     exchange_test_connections := Ok true;
     exchange_cleanup := None;
     data_initialize := None;
     data_test_connection := Ok true;
     data_get_latest_data := Ok sample_market;
     data_cleanup := None;
     metrics_initialize := None;
     metrics_update_metrics := None;
     metrics_increment_error_count := None;
     metrics_get_error_count := None;
     metrics_cleanup := None;
     calculate_current_exposure := 0;
     calculate_daily_pnl := 0;
     execute_single_trade := fun _ => None |}.

Definition timeout : exn := CollaboratorError "timeout".

(** As [calm], but the data manager fails to deliver the snapshot. *)
Definition no_snapshot : Env :=
  {| exchange_initialize := None;
     exchange_test_connections := Ok true;
     exchange_cleanup := None;
     data_initialize := None;
     data_test_connection := Ok true;
     data_get_latest_data := Raise timeout;
     data_cleanup := None;
     metrics_initialize := None;
     metrics_update_metrics := None;
     metrics_increment_error_count := None;
     metrics_get_error_count := None;
     metrics_cleanup := None;
     calculate_current_exposure := 0;
     calculate_daily_pnl := 0;
     execute_single_trade := fun _ => None |}.

(** As [calm], but the exchange manager fails to close. *)
Definition stuck_exchange : Env :=
  {| exchange_initialize := None;
     exchange_test_connections := Ok true;
     exchange_cleanup := Some timeout;
     data_initialize := None;
     data_test_connection := Ok true;
     data_get_latest_data := Ok sample_market;
     data_cleanup := None;
     metrics_initialize := None;
     metrics_update_metrics := None;
     metrics_increment_error_count := None;
     metrics_get_error_count := None;
     metrics_cleanup := None;
     calculate_current_exposure := 0;
     calculate_daily_pnl := 0;
     execute_single_trade := fun _ => None |}.

(** As [calm], with the portfolio queries answering [exposure] and [pnl]. *)
Definition with_portfolio (exposure pnl : Q) : Env :=
  {| exchange_initialize := None;
     exchange_test_connections := Ok true;
     exchange_cleanup := None;
     data_initialize := None;
     data_test_connection := Ok true;
     data_get_latest_data := Ok sample_market;
     data_cleanup := None;
     metrics_initialize := None;
     metrics_update_metrics := None;
     metrics_increment_error_count := None;
     metrics_get_error_count := None;
     metrics_cleanup := None;
     calculate_current_exposure := exposure;
     calculate_daily_pnl := pnl;
     execute_single_trade := fun _ => None |}.

Definition metrics_down : exn := CollaboratorError "metrics backend down".

(** As [no_snapshot], and the collector fails to count the error. *)
Definition broken_counter : Env :=
  {| exchange_initialize := None;
     exchange_test_connections := Ok true;
     exchange_cleanup := None;
     data_initialize := None;
     data_test_connection := Ok true;
     data_get_latest_data := Raise timeout;
     data_cleanup := None;
     metrics_initialize := None;
     metrics_update_metrics := None;
     metrics_increment_error_count := Some metrics_down;
     metrics_get_error_count := None;
     metrics_cleanup := None;
     calculate_current_exposure := 0;
     calculate_daily_pnl := 0;
     execute_single_trade := fun _ => None |}.

(** As [calm], but the data manager fails to start. *)
Definition no_database : Env :=
  {| exchange_initialize := None;
     exchange_test_connections := Ok true;
     exchange_cleanup := None;
     data_initialize := Some timeout;
     data_test_connection := Ok true;
     data_get_latest_data := Ok sample_market;
     data_cleanup := None;
     metrics_initialize := None;
     metrics_update_metrics := None;
     metrics_increment_error_count := None;
     metrics_get_error_count := None;
     metrics_cleanup := None;
     calculate_current_exposure := 0;
     calculate_daily_pnl := 0;
     execute_single_trade := fun _ => None |}.

(** A bot created from [sample_config] and initialized. *)
Definition started : State := snd (initialize calm (__init__ sample_config)).

(** A bot whose start-up stopped at the data manager: the exchange manager
    and the data manager are assigned, the metrics collector is not. *)
Definition half_started : State := snd (initialize no_database (__init__ sample_config)).

(** Two exchanges, the second one with a symbol of its own, and a snapshot in
    which that symbol is overbought. *)
Definition two_exchange_config : Config :=
  {| bot_mode := "paper";
     exchanges := [ {| symbols := ["BTC/USDT"] |}; {| symbols := ["DOGE/USDT"] |} ];
     data := {| database := "athena" |};
     strategy := {| type := "mean_reversion";
                    entry := {| rsi_low := 30 |};
                    exit := {| rsi_high := 70 |} |};
     risk := {| global_exposure_cap_pct := 20; daily_loss_cap_pct := 5 |};
     ops := {| ntp_required := true |} |}.

Definition second_exchange_market : MarketData :=
  <["BTC/USDT" := {| rsi := Some 50%Q; timestamp := Some 1700000000 |}]>
    {["DOGE/USDT" := {| rsi := Some 75%Q; timestamp := Some 1700000000 |}]}.

(** ** Invariants of methods *)

(** [m] keeps the property [I] of the object, whether it returns or raises. *)
Definition preserves {A} (I : BotManager -> Prop) (m : M A) : Prop :=
  forall st, I (self st) -> I (self (snd (m st))).

(** * Numbers *)

Lemma Qltb_lt (x y : Q) : Qltb x y = true <-> (x < y)%Q.
Proof.
  unfold Qltb. rewrite negb_true_iff, <- not_true_iff_false, Qle_bool_iff.
  split; [apply Qnot_le_lt | apply Qlt_not_le].
Qed.

Lemma Qltb_ge (x y : Q) : Qltb x y = false <-> (y <= x)%Q.
Proof.
  unfold Qltb. rewrite negb_false_iff. apply Qle_bool_iff.
Qed.

Lemma py_div_nonzero (x y : Q) : ~ (y == 0)%Q -> py_div x y = Ok (x / y)%Q.
Proof.
  intros Hy. unfold py_div.
  destruct (Qeq_bool y 0) eqn:E; [| reflexivity].
  apply Qeq_bool_iff in E. contradiction.
Qed.

Lemma py_div_zero (x y : Q) : (y == 0)%Q -> py_div x y = Raise ZeroDivisionError.
Proof.
  intros Hy. unfold py_div. apply Qeq_bool_iff in Hy. now rewrite Hy.
Qed.

Lemma unit_fraction (a b : Q) : (0 <= a)%Q -> (a <= b)%Q -> (0 < b)%Q -> (0 <= a / b <= 1)%Q.
Proof.
  intros Ha Hab Hb. split.
  - apply Qle_shift_div_l; [assumption | lra].
  - apply Qle_shift_div_r; [assumption | lra].
Qed.

Section Generator.
Variable config : StrategyConfig.
Let low : Q := rsi_low (entry config).
Let high : Q := rsi_high (exit config).

Lemma mean_reversion_no_rsi symbol data :
  rsi data = None -> _mean_reversion_signal symbol data config = Ok None.
Proof. unfold _mean_reversion_signal. now intros ->. Qed.

Lemma mean_reversion_buy symbol data r :
  rsi data = Some r -> (r < low)%Q -> ~ (low == 0)%Q ->
  _mean_reversion_signal symbol data config =
    Ok (Some {| symbol := symbol; action := buy;
                signal_strength := ((low - r) / low)%Q;
                signal_timestamp := timestamp data;
                reason := RsiOversold r |}).
Proof.
  intros Hr Hlt Hnz. unfold _mean_reversion_signal. rewrite Hr.
  apply Qltb_lt in Hlt. fold low. rewrite Hlt.
  now rewrite py_div_nonzero.
Qed.

(** Off the RSI scale: an RSI below an entry threshold of 0 divides by 0. *)
Lemma mean_reversion_buy_zero symbol data r :
  rsi data = Some r -> (r < low)%Q -> (low == 0)%Q ->
  _mean_reversion_signal symbol data config = Raise ZeroDivisionError.
Proof.
  intros Hr Hlt Hz. unfold _mean_reversion_signal. rewrite Hr.
  apply Qltb_lt in Hlt. fold low. rewrite Hlt.
  now rewrite py_div_zero.
Qed.

Lemma mean_reversion_sell symbol data r :
  rsi data = Some r -> ~ (r < low)%Q -> (high < r)%Q -> ~ (100 - high == 0)%Q ->
  _mean_reversion_signal symbol data config =
    Ok (Some {| symbol := symbol; action := sell;
                signal_strength := ((r - high) / (100 - high))%Q;
                signal_timestamp := timestamp data;
                reason := RsiOverbought r |}).
Proof.
  intros Hr Hge Hgt Hnz. unfold _mean_reversion_signal. rewrite Hr.
  rewrite <- Qltb_lt, not_true_iff_false in Hge. apply Qltb_lt in Hgt.
  fold low high. rewrite Hge, Hgt.
  now rewrite py_div_nonzero.
Qed.

(** Off the RSI scale: an RSI above an exit threshold of 100 divides by 0. *)
Lemma mean_reversion_sell_zero symbol data r :
  rsi data = Some r -> ~ (r < low)%Q -> (high < r)%Q -> (100 - high == 0)%Q ->
  _mean_reversion_signal symbol data config = Raise ZeroDivisionError.
Proof.
  intros Hr Hge Hgt Hz. unfold _mean_reversion_signal. rewrite Hr.
  rewrite <- Qltb_lt, not_true_iff_false in Hge. apply Qltb_lt in Hgt.
  fold low high. rewrite Hge, Hgt.
  now rewrite py_div_zero.
Qed.

Lemma mean_reversion_neutral symbol data r :
  rsi data = Some r -> ~ (r < low)%Q -> ~ (high < r)%Q ->
  _mean_reversion_signal symbol data config = Ok None.
Proof.
  intros Hr Hge Hle. unfold _mean_reversion_signal. rewrite Hr.
  rewrite <- Qltb_lt, not_true_iff_false in Hge, Hle.
  fold low high. now rewrite Hge, Hle.
Qed.

Lemma mean_reversion_raises symbol data e :
  _mean_reversion_signal symbol data config = Raise e -> e = ZeroDivisionError.
Proof.
  unfold _mean_reversion_signal, py_div.
  repeat case_match; congruence.
Qed.

Variable market_data : MarketData.
Hypothesis mean_reversion : type config = "mean_reversion".

Lemma generate_loop_returns todo : forall signals,
  Forall (fun s => is_ok (symbol_signal config market_data s) = true) todo ->
  generate_loop config market_data todo signals =
    Ok (signals ++ omap (fun s => returned (symbol_signal config market_data s)) todo).
Proof.
  induction todo as [| s todo IH]; intros signals Hall; simpl.
  - now rewrite app_nil_r.
  - apply Forall_cons in Hall as [Hs Hall].
    rewrite mean_reversion. simpl. unfold symbol_signal in *.
    destruct (_mean_reversion_signal s _ config) as [[sig |] | e]; simpl in *.
    + rewrite IH by assumption. now rewrite <- app_assoc.
    + now apply IH.
    + discriminate.
Qed.

Lemma generate_loop_raises todo : forall signals,
  Exists (fun s => is_ok (symbol_signal config market_data s) = false) todo ->
  generate_loop config market_data todo signals = Raise ZeroDivisionError.
Proof.
  induction todo as [| s todo IH]; intros signals Hex; simpl.
  - inversion Hex.
  - rewrite mean_reversion. simpl. unfold symbol_signal in *.
    destruct (_mean_reversion_signal s _ config) as [[sig |] | e] eqn:E; simpl in *.
    + apply IH. inversion Hex; subst; [rewrite E in *; discriminate | assumption].
    + apply IH. inversion Hex; subst; [rewrite E in *; discriminate | assumption].
    + now rewrite (mean_reversion_raises _ _ _ E).
Qed.
End Generator.

Lemma generate_signals_unfold market_data st first others :
  exchanges (config (self st)) = first :: others ->
  _generate_signals market_data st =
    (generate_loop (strategy (config (self st))) market_data (symbols first) [], st).
Proof.
  intros Hex. unfold _generate_signals, bind, gets, lift. simpl. now rewrite Hex.
Qed.

Lemma mean_reversion_signal_symbol s data config signal :
  _mean_reversion_signal s data config = Ok (Some signal) -> symbol signal = s.
Proof.
  unfold _mean_reversion_signal, py_div.
  repeat case_match; intros [= <-]; reflexivity.
Qed.

(** On a snapshot whose RSI values are on the RSI scale, no division of the
    generator has a zero divisor. *)
Lemma symbol_signal_returns config market_data s :
  (forall symbol data r,
     market_data !! symbol = Some data -> rsi data = Some r ->
     (0 <= r)%Q /\ (r <= 100)%Q) ->
  is_ok (symbol_signal config market_data s) = true.
Proof.
  intros Hscale. unfold symbol_signal.
  destruct (market_data !! s) as [data |] eqn:Hl; simpl; [| reflexivity].
  destruct (rsi data) as [r |] eqn:Hr; [| now rewrite mean_reversion_no_rsi].
  destruct (Hscale s data r Hl Hr) as [H0 H100].
  destruct (Qlt_le_dec r (rsi_low (entry config))) as [Hlt | Hge].
  - rewrite (mean_reversion_buy config s data r); [reflexivity | assumption.. | lra].
  - destruct (Qlt_le_dec (rsi_high (exit config)) r) as [Hgt | Hle].
    + rewrite (mean_reversion_sell config s data r); [reflexivity | try assumption; lra..].
    + rewrite (mean_reversion_neutral config s data r); [reflexivity | try assumption; lra..].
Qed.

(** C5, amended.  With the mean-reversion strategy selected and a snapshot
    whose RSI values are on the RSI scale [0, 100], for each symbol of the
    first configured exchange, [exchanges[0]], whose snapshot entry holds an
    RSI value: if [rsi < entry.rsi_low] the generator emits one buy signal for
    the symbol with strength [(rsi_low - rsi) / rsi_low]; else if
    [rsi > exit.rsi_high] it emits one sell signal with strength
    [(rsi - rsi_high) / (100 - rsi_high)]; otherwise it emits nothing for the
    symbol.  A symbol whose entry is absent or has no RSI gives no signal and
    no error.  The signals come in the order of the symbols of the first
    exchange, and no other symbol gets one: the symbols of further exchanges
    are not read. *)
Theorem generate_signals_mean_reversion
    (st : State) (market_data : MarketData)
    (first : ExchangeConfig) (others : list ExchangeConfig) :
  let strategy_config := strategy (config (self st)) in
  let low := rsi_low (entry strategy_config) in
  let high := rsi_high (exit strategy_config) in
  type strategy_config = "mean_reversion" ->
  exchanges (config (self st)) = first :: others ->
  (forall symbol data r,
     market_data !! symbol = Some data -> rsi data = Some r ->
     (0 <= r)%Q /\ (r <= 100)%Q) ->
  (forall symbol,
     let data := default no_data (market_data !! symbol) in
     match rsi data with
     | None => symbol_signal strategy_config market_data symbol = Ok None
     | Some r =>
         ((r < low)%Q ->
          symbol_signal strategy_config market_data symbol =
            Ok (Some {| symbol := symbol; action := buy;
                        signal_strength := ((low - r) / low)%Q;
                        signal_timestamp := timestamp data;
                        reason := RsiOversold r |}))
         /\ (~ (r < low)%Q -> (high < r)%Q ->
             symbol_signal strategy_config market_data symbol =
               Ok (Some {| symbol := symbol; action := sell;
                           signal_strength := ((r - high) / (100 - high))%Q;
                           signal_timestamp := timestamp data;
                           reason := RsiOverbought r |}))
         /\ (~ (r < low)%Q -> ~ (high < r)%Q ->
             symbol_signal strategy_config market_data symbol = Ok None)
     end)
  /\ _generate_signals market_data st =
       (Ok (omap (fun s => returned (symbol_signal strategy_config market_data s))
              (symbols first)), st)
  /\ (forall signals signal,
        fst (_generate_signals market_data st) = Ok signals ->
        signal ∈ signals -> symbol signal ∈ symbols first).
Proof.
  intros strategy_config low high Hty Hex Hscale.
  assert (Hrun : _generate_signals market_data st =
                   (Ok (omap (fun s => returned (symbol_signal strategy_config market_data s))
                          (symbols first)), st)).
  { rewrite (generate_signals_unfold _ _ _ _ Hex). fold strategy_config.
    rewrite generate_loop_returns; [reflexivity | assumption |].
    apply Forall_forall. intros s _. now apply symbol_signal_returns. }
  split; [| split; [exact Hrun |]].
  - intros symbol data. unfold symbol_signal. fold data.
    destruct (rsi data) as [r |] eqn:Hr; [| now apply mean_reversion_no_rsi].
    assert (Hr' : (0 <= r)%Q /\ (r <= 100)%Q).
    { unfold data in Hr. destruct (market_data !! symbol) as [d |] eqn:Hl; simpl in Hr.
      - now apply (Hscale symbol d r).
      - discriminate. }
    destruct Hr' as [H0 H100]. repeat split; intros.
    + apply mean_reversion_buy; [assumption.. |]. fold low. lra.
    + apply mean_reversion_sell; [assumption.. |]. fold high. lra.
    + now apply mean_reversion_neutral with r.
  - intros signals signal. rewrite Hrun. simpl. intros [= <-] Hin.
    apply list_elem_of_omap in Hin as (s & Hs & Hret).
    unfold returned, symbol_signal in Hret.
    destruct (_mean_reversion_signal s _ strategy_config) as [[sig |] | e] eqn:E;
      try discriminate.
    injection Hret as ->. now rewrite (mean_reversion_signal_symbol _ _ _ _ E).
Qed.

(** The sample snapshot: BTC is bought, ETH sold, SOL and ADA give nothing. *)
Lemma generate_signals_mean_reversion_witness :
  _generate_signals sample_market started =
    (Ok [ {| symbol := "BTC/USDT"; action := buy;
             signal_strength := ((30 - 25) / 30)%Q;
             signal_timestamp := Some 1700000000;
             reason := RsiOversold 25 |};
          {| symbol := "ETH/USDT"; action := sell;
             signal_strength := ((75 - 70) / (100 - 70))%Q;
             signal_timestamp := Some 1700000000;
             reason := RsiOverbought 75 |} ], started).
Proof.
  refine (proj1 (proj2 (generate_signals_mean_reversion started sample_market
                          {| symbols := ["BTC/USDT"; "ETH/USDT"; "SOL/USDT"; "ADA/USDT"] |} []
                          eq_refl eq_refl _))).
  intros symbol data r Hl Hr. unfold sample_market in Hl.
  repeat (apply lookup_insert_Some in Hl as [[_ <-] | [_ Hl]];
          [injection Hr as <-; split; discriminate |]).
  rewrite lookup_empty in Hl. discriminate.
Defined.

(** C5 as stated fails: DOGE is a configured symbol, of the second exchange,
    and the snapshot gives it an RSI of 75, above [exit.rsi_high = 70]; the
    generator, which reads the symbols of the first exchange only, emits no
    sell signal for it. *)
Lemma second_exchange_counterexample :
  "DOGE/USDT" ∈ (exchanges two_exchange_config ≫= symbols)
  /\ second_exchange_market !! "DOGE/USDT" =
       Some {| rsi := Some 75%Q; timestamp := Some 1700000000 |}
  /\ ~ (75 < rsi_low (entry (strategy two_exchange_config)))%Q
  /\ (rsi_high (exit (strategy two_exchange_config)) < 75)%Q
  /\ _generate_signals second_exchange_market (__init__ two_exchange_config) =
       (Ok [], __init__ two_exchange_config).
Proof.
  split; [| split; [| split; [| split]]].
  - simpl. set_solver.
  - vm_compute. reflexivity.
  - simpl. lra.
  - simpl. lra.
  - vm_compute. reflexivity.
Qed.

(** C6.  For an RSI in [0, 100] and thresholds with [0 < entry.rsi_low] and
    [exit.rsi_high < 100], [_mean_reversion_signal] returns, and a signal it
    returns has its strength in [0, 1]. *)
Theorem signal_strength_in_unit_interval
    (symbol : string) (data : SymbolData) (config : StrategyConfig) (r : Q) :
  rsi data = Some r ->
  (0 <= r)%Q -> (r <= 100)%Q ->
  (0 < rsi_low (entry config))%Q -> (rsi_high (exit config) < 100)%Q ->
  exists o,
    _mean_reversion_signal symbol data config = Ok o
    /\ forall signal, o = Some signal ->
         (0 <= signal_strength signal)%Q /\ (signal_strength signal <= 1)%Q.
Proof.
  intros Hr H0 H100 Hlow Hhigh.
  destruct (Qlt_le_dec r (rsi_low (entry config))) as [Hlt | Hge].
  - eexists. split.
    + apply mean_reversion_buy; [eassumption | assumption | lra].
    + intros signal [= <-]. simpl. apply unit_fraction; lra.
  - destruct (Qlt_le_dec (rsi_high (exit config)) r) as [Hgt | Hle].
    + eexists. split.
      * apply mean_reversion_sell; [eassumption | lra | assumption | lra].
      * intros signal [= <-]. simpl. apply unit_fraction; lra.
    + exists None. split; [| discriminate].
      apply mean_reversion_neutral with r; [assumption | lra | lra].
Qed.

(** RSI 25 against the thresholds 30 and 70. *)
Lemma signal_strength_in_unit_interval_witness :
  exists o,
    _mean_reversion_signal "BTC/USDT" {| rsi := Some 25%Q; timestamp := None |}
      (strategy sample_config) = Ok o
    /\ forall signal, o = Some signal ->
         (0 <= signal_strength signal)%Q /\ (signal_strength signal <= 1)%Q.
Proof.
  apply (signal_strength_in_unit_interval "BTC/USDT"
           {| rsi := Some 25%Q; timestamp := None |} (strategy sample_config) 25%Q eq_refl);
    simpl; lra.
Defined.

(** * Invariants of the object *)

Create HintDb preserve.

Section Preserves.
Variable I : BotManager -> Prop.

Lemma preserves_ret {A} (a : A) : preserves I (ret a).
Proof. now intros st. Qed.

Lemma preserves_raise {A} (e : exn) : preserves I (@raise A e).
Proof. now intros st. Qed.

Lemma preserves_lift {A} (r : Res A) : preserves I (lift r).
Proof. now intros st. Qed.

Lemma preserves_gets {A} (f : BotManager -> A) : preserves I (gets f).
Proof. now intros st. Qed.

Lemma preserves_emit (ev : Event) : preserves I (emit ev).
Proof. now intros st. Qed.

Lemma preserves_modify (f : BotManager -> BotManager) :
  (forall b, I b -> I (f b)) -> preserves I (modify f).
Proof. intros Hf st. simpl. apply Hf. Qed.

Lemma preserves_bind {A B} (m : M A) (k : A -> M B) :
  preserves I m -> (forall a, preserves I (k a)) -> preserves I (bind m k).
Proof.
  intros Hm Hk st HI. unfold bind. specialize (Hm st HI).
  destruct (m st) as [[a | e] st']; simpl in *; [now apply Hk | assumption].
Qed.

Lemma preserves_try_except {A} (body : M A) (handler : exn -> M A) :
  preserves I body -> (forall e, preserves I (handler e)) ->
  preserves I (try_except body handler).
Proof.
  intros Hm Hk st HI. unfold try_except. specialize (Hm st HI).
  destruct (body st) as [[a | e] st']; simpl in *; [assumption | now apply Hk].
Qed.

Lemma preserves_log lvl msg : preserves I (log lvl msg).
Proof. apply preserves_emit. Qed.

Lemma preserves_await c o : preserves I (await c o).
Proof.
  unfold await. apply preserves_bind; [apply preserves_emit |].
  intros _. destruct o; [apply preserves_raise | apply preserves_ret].
Qed.

Lemma preserves_await_value {A} c (r : Res A) : preserves I (await_value c r).
Proof.
  unfold await_value. apply preserves_bind; [apply preserves_emit |].
  intros _. apply preserves_lift.
Qed.

Hint Resolve preserves_ret preserves_raise preserves_lift preserves_gets
  preserves_emit preserves_log preserves_await preserves_await_value : preserve.

Ltac preserve :=
  repeat lazymatch goal with
  | |- preserves _ (bind _ _) => apply preserves_bind
  | |- preserves _ (try_except _ _) => apply preserves_try_except
  | |- preserves _ (match ?x with _ => _ end) => destruct x
  | |- preserves _ _ => solve [auto with preserve]
  | |- forall _, _ => intro
  end.

Lemma preserves_the_data_manager : preserves I the_data_manager.
Proof. unfold the_data_manager. preserve. Qed.

Lemma preserves_the_exchange_manager : preserves I the_exchange_manager.
Proof. unfold the_exchange_manager. preserve. Qed.

Lemma preserves_the_metrics_collector : preserves I the_metrics_collector.
Proof. unfold the_metrics_collector. preserve. Qed.

Hint Resolve preserves_the_data_manager preserves_the_exchange_manager
  preserves_the_metrics_collector : preserve.

Lemma preserves_generate_signals md : preserves I (_generate_signals md).
Proof. unfold _generate_signals. preserve. Qed.

Lemma preserves_assess_risks env signals md : preserves I (_assess_risks env signals md).
Proof.
  unfold _assess_risks, _calculate_current_exposure, _calculate_daily_pnl. preserve.
Qed.

Lemma preserves_execute_loop env todo : preserves I (execute_loop env todo).
Proof.
  induction todo as [| s todo IH]; simpl; [apply preserves_ret |].
  unfold _execute_single_trade. preserve.
Qed.

Lemma preserves_execute_trades env signals ra : preserves I (_execute_trades env signals ra).
Proof.
  unfold _execute_trades. preserve. apply preserves_execute_loop.
Qed.

Lemma preserves_safety_checks env : preserves I (_perform_safety_checks env).
Proof. unfold _perform_safety_checks. preserve. Qed.

Lemma preserves_cleanup env : preserves I (cleanup env).
Proof. unfold cleanup. preserve. Qed.

Hint Resolve preserves_generate_signals preserves_assess_risks
  preserves_execute_trades preserves_safety_checks : preserve.

Hypothesis stable_metrics :
  forall v b, I b -> I (set_metrics_collector (Some v) b).
Hypothesis stable_stop : forall b, I b -> I (set_emergency_stop true b).

Lemma preserves_run_cycle_try env : preserves I (run_cycle_try env).
Proof.
  unfold run_cycle_try. preserve. apply preserves_modify. auto.
Qed.

Lemma preserves_handle_cycle_error env e : preserves I (_handle_cycle_error env e).
Proof.
  unfold _handle_cycle_error. preserve; apply preserves_modify; auto.
Qed.

Lemma preserves_run_cycle env : preserves I (run_cycle env).
Proof.
  unfold run_cycle. preserve.
  - apply preserves_run_cycle_try.
  - apply preserves_handle_cycle_error.
Qed.

Hypothesis stable_exchange :
  forall v b, I b -> I (set_exchange_manager (Some v) b).
Hypothesis stable_data : forall v b, I b -> I (set_data_manager (Some v) b).
Hypothesis stable_initialized : forall b, I b -> I (set_is_initialized true b).

Lemma preserves_initialize env : preserves I (initialize env).
Proof.
  unfold initialize. preserve; apply preserves_modify; auto.
Qed.

Lemma preserves_step op : preserves I (step op).
Proof.
  destruct op; simpl.
  - apply preserves_initialize.
  - apply preserves_run_cycle.
  - apply preserves_handle_cycle_error.
  - apply preserves_cleanup.
Qed.

Lemma preserves_run ops : forall st, I (self st) -> I (self (snd (run ops st))).
Proof.
  induction ops as [| op ops IH]; intros st HI; simpl; [assumption |].
  pose proof (preserves_step op st HI) as Hstep.
  destruct (step op st) as [r st']. simpl in Hstep.
  specialize (IH st' Hstep).
  destruct (run ops st') as [rs st'']. assumption.
Qed.
End Preserves.

Lemma initialize_outcome env st :
  match initialize env st with
  | (Ok _, st') =>
      is_initialized (self st') = true
      /\ is_Some (exchange_manager (self st'))
      /\ is_Some (data_manager (self st'))
      /\ is_Some (metrics_collector (self st'))
  | (Raise _, st') =>
      is_initialized (self st') = is_initialized (self st)
      /\ (is_Some (exchange_manager (self st)) -> is_Some (exchange_manager (self st')))
      /\ (is_Some (data_manager (self st)) -> is_Some (data_manager (self st')))
      /\ (is_Some (metrics_collector (self st)) -> is_Some (metrics_collector (self st')))
  end.
Proof.
  unfold initialize, _perform_safety_checks, the_exchange_manager, the_data_manager,
    try_except, bind, await, await_value, log, emit, modify, gets, lift, ret, raise.
  simpl.
  destruct (exchange_initialize env), (data_initialize env), (metrics_initialize env),
    (exchange_test_connections env), (data_test_connection env); simpl;
    try destruct (ntp_required (ops (config (self st)))); simpl; eauto 10.
Qed.

Lemma initialize_collaborators env st :
  collaborators_set (self st) -> collaborators_set (self (snd (initialize env st))).
Proof.
  intros Hset. pose proof (initialize_outcome env st) as H.
  destruct (initialize env st) as [[[] | e] st']; simpl.
  - intros _. tauto.
  - destruct H as (Hi & He & Hd & Hm). intros Hinit. rewrite Hi in Hinit.
    destruct (Hset Hinit) as (? & ? & ?). auto.
Qed.

Lemma collaborators_stable_metrics v b :
  collaborators_set b -> collaborators_set (set_metrics_collector (Some v) b).
Proof. unfold collaborators_set. simpl. intros H Hi. destruct (H Hi) as (? & ? & ?). eauto. Qed.

Lemma collaborators_stable_stop b :
  collaborators_set b -> collaborators_set (set_emergency_stop true b).
Proof. unfold collaborators_set. now simpl. Qed.

Lemma step_collaborators op st :
  collaborators_set (self st) -> collaborators_set (self (snd (step op st))).
Proof.
  destruct op; simpl.
  - apply initialize_collaborators.
  - apply preserves_run_cycle;
      [apply collaborators_stable_metrics | apply collaborators_stable_stop].
  - apply preserves_handle_cycle_error;
      [apply collaborators_stable_metrics | apply collaborators_stable_stop].
  - apply preserves_cleanup.
Qed.

Lemma run_collaborators ops : forall st,
  collaborators_set (self st) -> collaborators_set (self (snd (run ops st))).
Proof.
  induction ops as [| op ops IH]; intros st Hset; simpl; [assumption |].
  pose proof (step_collaborators op st Hset) as Hstep.
  destruct (step op st) as [r st']. simpl in Hstep.
  specialize (IH st' Hstep). now destruct (run ops st').
Qed.

Lemma init_collaborators c : collaborators_set (self (__init__ c)).
Proof. unfold collaborators_set. simpl. discriminate. Qed.

(** Only [initialize] sets [is_initialized], and only when it returns. *)
Lemma step_initialized op st :
  is_initialized (self (snd (step op st))) = true <->
  is_initialized (self st) = true
  \/ ((exists env, op = OpInitialize env) /\ fst (step op st) = Ok tt).
Proof.
  destruct op as [env | env | env e | env]; simpl.
  - pose proof (initialize_outcome env st) as H.
    destruct (initialize env st) as [[[] | e] st']; simpl.
    + split; [eauto | tauto].
    + destruct H as [-> _]. split; [tauto |].
      intros [? | [_ ?]]; [assumption | discriminate].
  - split.
    + intros H. left. destruct (is_initialized (self st)) eqn:E; [reflexivity |].
      rewrite <- H. symmetry.
      apply (preserves_run_cycle (fun b => is_initialized b = false)); auto.
    + intros [H | [[? [=]] _]].
      apply (preserves_run_cycle (fun b => is_initialized b = true)); auto.
  - split.
    + intros H. left. destruct (is_initialized (self st)) eqn:E; [reflexivity |].
      rewrite <- H. symmetry.
      apply (preserves_handle_cycle_error (fun b => is_initialized b = false)); auto.
    + intros [H | [[? [=]] _]].
      apply (preserves_handle_cycle_error (fun b => is_initialized b = true)); auto.
  - split.
    + intros H. left. destruct (is_initialized (self st)) eqn:E; [reflexivity |].
      rewrite <- H. symmetry.
      apply (preserves_cleanup (fun b => is_initialized b = false)); auto.
    + intros [H | [[? [=]] _]].
      apply (preserves_cleanup (fun b => is_initialized b = true)); auto.
Qed.

Lemma run_initialized ops : forall st,
  is_initialized (self (snd (run ops st))) = true <->
  is_initialized (self st) = true \/ exists i, initialize_completed ops st i.
Proof.
  unfold initialize_completed.
  induction ops as [| op ops IH]; intros st; simpl.
  - split; [tauto |]. intros [? | (i & [env H] & _)]; [assumption | discriminate].
  - pose proof (step_initialized op st) as Hstep.
    destruct (step op st) as [r st'] eqn:Es. simpl in Hstep.
    specialize (IH st'). destruct (run ops st') as [rs st''] eqn:Er. simpl in *.
    rewrite IH, Hstep. split.
    + intros [[H | [[env ->] ->]] | (i & [env Hop] & Hr)].
      * now left.
      * right. exists 0%nat. simpl. eauto.
      * right. exists (S i). simpl. eauto.
    + intros [H | ([| i] & [env Hop] & Hr)]; simpl in *.
      * left. now left.
      * left. right. split; [exists env |]; congruence.
      * right. eauto.
Qed.

(** * The stages of a cycle *)

Lemma generate_signals_state md st : snd (_generate_signals md st) = st.
Proof.
  unfold _generate_signals, bind, gets, lift, raise. simpl.
  now destruct (exchanges (config (self st))).
Qed.

Lemma assess_risks_run env signals md st :
  let exposure := calculate_current_exposure env in
  let pnl := calculate_daily_pnl env in
  let risk_config := risk (config (self st)) in
  let over := Qltb (global_exposure_cap_pct risk_config) exposure in
  let loss := Qltb pnl (- daily_loss_cap_pct risk_config)%Q in
  _assess_risks env signals md st =
    (Ok {| can_trade := negb over && negb loss;
           reasons := (if over then [ExposureTooHigh exposure] else [])
                      ++ (if loss then [DailyLossLimitReached pnl] else []);
           current_exposure := exposure;
           daily_pnl := pnl;
           approved_signals := if negb over && negb loss then signals else [] |},
     {| self := self st;
        trace := trace st ++ [Called CalculateCurrentExposure; Called CalculateDailyPnl] |}).
Proof.
  intros exposure pnl risk_config over loss.
  unfold _assess_risks, _calculate_current_exposure, _calculate_daily_pnl,
    await_value, bind, gets, emit, lift, ret. simpl.
  fold exposure pnl risk_config over loss.
  destruct over, loss; simpl; now rewrite <- app_assoc.
Qed.

Lemma execute_loop_returns env todo : forall st,
  fst (execute_loop env todo st) = Ok tt.
Proof.
  induction todo as [| s todo IH]; intros st; simpl; [reflexivity |].
  unfold bind, try_except, _execute_single_trade, await, log, emit, ret, raise. simpl.
  destruct (execute_single_trade env s); simpl; apply IH.
Qed.

Lemma execute_trades_returns env signals ra st :
  fst (_execute_trades env signals ra st) = Ok tt.
Proof.
  unfold _execute_trades, bind, gets, log, emit. simpl.
  destruct (String.eqb (mode (self st)) "paper"); simpl; apply execute_loop_returns.
Qed.

Lemma execute_trades_self env signals ra st :
  self (snd (_execute_trades env signals ra st)) = self st.
Proof.
  now apply (preserves_execute_trades (fun b => b = self st)).
Qed.

(** The handler when the collector answers both of its calls. *)
Lemma handle_cycle_error_run env error st mc :
  metrics_collector (self st) = Some mc ->
  counter_answers env ->
  let tripped := 5 <? error_count mc + 1 in
  let counted := set_metrics_collector (Some (increment_error_count mc)) (self st) in
  _handle_cycle_error env error st =
    (Ok tt,
     {| self := if tripped then set_emergency_stop true counted else counted;
        trace := trace st
                 ++ [Logged ERROR (MsgHandlingCycleError error);
                     Called MetricsIncrementErrorCount;
                     Called MetricsGetErrorCount]
                 ++ (if tripped then [Logged CRITICAL MsgTooManyErrors] else []) |}).
Proof.
  intros Hmc [Hinc Hget] tripped counted.
  unfold _handle_cycle_error, the_metrics_collector, await, await_value, bind, gets, modify,
    log, emit, lift, ret.
  simpl. rewrite Hmc. simpl. rewrite Hinc. simpl. rewrite Hget. simpl.
  unfold get_error_count. simpl. fold tripped.
  destruct tripped; simpl; f_equal; f_equal; fold counted;
    rewrite <- ?app_assoc; simpl; rewrite ?app_nil_r; reflexivity.
Qed.

(** How the handler ends: with the exception of the first of its two calls
    on the collector that raises, if one does. *)
Lemma handle_cycle_error_result env error st mc :
  metrics_collector (self st) = Some mc ->
  fst (_handle_cycle_error env error st) =
    match metrics_increment_error_count env, metrics_get_error_count env with
    | Some e, _ => Raise e
    | None, Some e => Raise e
    | None, None => Ok tt
    end.
Proof.
  intros Hmc.
  unfold _handle_cycle_error, the_metrics_collector, await, await_value, bind, gets, modify,
    log, emit, lift, ret, raise.
  simpl. rewrite Hmc. simpl.
  destruct (metrics_increment_error_count env); simpl; [reflexivity |].
  destruct (metrics_get_error_count env); simpl; [reflexivity |].
  now destruct (5 <? _).
Qed.

(** A cycle that raises leaves the object as it was; one that completes
    has only handed its report, that of a completed cycle, to the collector. *)
Lemma run_cycle_try_self env st :
  match run_cycle_try env st with
  | (Ok _, st') =>
      exists mc report,
        metrics_collector (self st) = Some mc
        /\ cycle_completed report = true
        /\ self st' = set_metrics_collector (Some (update_metrics report mc)) (self st)
  | (Raise _, st') => self st' = self st
  end.
Proof.
  unfold run_cycle_try. unfold bind at 1.
  unfold the_data_manager, bind at 1, gets. simpl.
  destruct (data_manager (self st)); simpl; [| reflexivity].
  unfold bind at 1, await_value, bind at 1, emit, lift. simpl.
  destruct (data_get_latest_data env) as [md | e]; simpl; [| reflexivity].
  set (st1 := {| self := self st; trace := trace st ++ [Called DataGetLatestData] |}).
  unfold bind at 1.
  pose proof (generate_signals_state md st1) as Hg.
  destruct (_generate_signals md st1) as [[signals | e] st2]; simpl in Hg; subst st2;
    [| reflexivity].
  unfold bind at 1. rewrite assess_risks_run. cbv zeta.
  set (ra := {| can_trade := _ |}). set (st3 := {| self := self st1 |}).
  unfold bind at 1.
  assert (Hex : exists st4, (if can_trade ra then _execute_trades env signals ra else ret tt) st3
                            = (Ok tt, st4) /\ self st4 = self st).
  { destruct (can_trade ra).
    - pose proof (execute_trades_returns env signals ra st3) as Hr.
      pose proof (execute_trades_self env signals ra st3) as Hs.
      destruct (_execute_trades env signals ra st3) as [r st4]. simpl in *. subst r.
      now exists st4.
    - now exists st3. }
  destruct Hex as (st4 & -> & Hs4).
  unfold bind at 1, the_metrics_collector, bind at 1, gets. simpl. rewrite Hs4.
  destruct (metrics_collector (self st)) as [mc |] eqn:Hmc; simpl; [| assumption].
  unfold bind, await, bind, emit, modify, ret, raise. simpl.
  destruct (metrics_update_metrics env); simpl; [assumption |].
  rewrite Hs4. eexists _, _. split; [reflexivity |]. split; [| reflexivity]. reflexivity.
Qed.

Lemma run_cycle_before_initialize env st :
  is_initialized (self st) = false -> run_cycle env st = (Raise not_initialized, st).
Proof.
  intros H. unfold run_cycle, bind, gets. simpl. now rewrite H.
Qed.

Lemma run_cycle_skipped env st :
  is_initialized (self st) = true -> emergency_stop (self st) = true ->
  run_cycle env st =
    (Ok tt, {| self := self st; trace := trace st ++ [Logged WARNING MsgCycleSkipped] |}).
Proof.
  intros Hi Hs. unfold run_cycle, bind, gets. simpl.
  rewrite Hi. simpl. now rewrite Hs.
Qed.

Lemma run_cycle_completed env st st' :
  is_initialized (self st) = true -> emergency_stop (self st) = false ->
  run_cycle_try env st = (Ok tt, st') ->
  run_cycle env st = (Ok tt, st').
Proof.
  intros Hi Hs Ht. unfold run_cycle, bind, gets, try_except. simpl.
  rewrite Hi. simpl. rewrite Hs. simpl. now rewrite Ht.
Qed.

Lemma run_cycle_failed env st e st' :
  is_initialized (self st) = true -> emergency_stop (self st) = false ->
  run_cycle_try env st = (Raise e, st') ->
  run_cycle env st =
    _handle_cycle_error env e
      {| self := self st'; trace := trace st' ++ [Logged ERROR (MsgCycleFailed e)] |}.
Proof.
  intros Hi Hs Ht. unfold run_cycle, bind, gets, try_except. simpl.
  rewrite Hi. simpl. rewrite Hs. simpl. now rewrite Ht.
Qed.

(** How [run_cycle] ends on an initialized bot with its collaborators: it
    raises only when a stage raised and the handler could not count it. *)
Lemma run_cycle_result env st :
  collaborators_set (self st) -> is_initialized (self st) = true ->
  fst (run_cycle env st) =
    if emergency_stop (self st) then Ok tt
    else if is_ok (fst (run_cycle_try env st)) then Ok tt
    else match metrics_increment_error_count env, metrics_get_error_count env with
         | Some e, _ => Raise e
         | None, Some e => Raise e
         | None, None => Ok tt
         end.
Proof.
  intros Hset Hi. destruct (Hset Hi) as (_ & _ & [mc Hmc]).
  destruct (emergency_stop (self st)) eqn:Hs.
  - now rewrite run_cycle_skipped.
  - pose proof (run_cycle_try_self env st) as Ht.
    destruct (run_cycle_try env st) as [[[] | e] st'] eqn:E.
    + now rewrite (run_cycle_completed env st st').
    + rewrite (run_cycle_failed env st e st') by assumption.
      apply (handle_cycle_error_result env e _ mc). simpl. now rewrite Ht.
Qed.

(** An initialized bot with its collaborators lets no exception out of
    [run_cycle] as long as the collector answers the handler. *)
Lemma run_cycle_returns env st :
  collaborators_set (self st) -> is_initialized (self st) = true ->
  counter_answers env ->
  fst (run_cycle env st) = Ok tt.
Proof.
  intros Hset Hi [Hinc Hget]. rewrite run_cycle_result by assumption.
  rewrite Hinc, Hget. now repeat case_match.
Qed.

(** * Consecutive cycles *)

Lemma cycles_nil st : cycles [] st = st.
Proof. reflexivity. Qed.

Lemma cycles_cons env envs st :
  cycles (env :: envs) st = cycles envs (snd (run_cycle env st)).
Proof.
  unfold cycles. rewrite fmap_cons. cbn [run step].
  destruct (run_cycle env st) as [r st']. cbn [snd].
  now destruct (run (OpRunCycle <$> envs) st').
Qed.


(** What a failing cycle does to the object: the collector counts one more
    error, and the switch trips when the count passes 5. *)
Lemma failed_cycle_self env st mc :
  is_initialized (self st) = true -> emergency_stop (self st) = false ->
  metrics_collector (self st) = Some mc ->
  cycle_fails env st -> counter_answers env ->
  let counted := set_metrics_collector (Some (increment_error_count mc)) (self st) in
  self (snd (run_cycle env st)) =
    if 5 <? error_count mc + 1 then set_emergency_stop true counted else counted.
Proof.
  intros Hi Hs Hmc [e He] Hans counted.
  pose proof (run_cycle_try_self env st) as Ht.
  destruct (run_cycle_try env st) as [r st'] eqn:E. simpl in He. subst r.
  rewrite (run_cycle_failed env st e st') by assumption.
  rewrite (handle_cycle_error_run env e _ mc) by (simpl; now rewrite ?Ht).
  simpl. now rewrite Ht.
Qed.

(** A cycle whose stages all succeed hands its report to the collector and
    touches nothing else. *)
Lemma completed_cycle_self env st :
  is_initialized (self st) = true -> emergency_stop (self st) = false ->
  fst (run_cycle_try env st) = Ok tt ->
  exists mc report,
    metrics_collector (self st) = Some mc
    /\ cycle_completed report = true
    /\ self (snd (run_cycle env st)) =
         set_metrics_collector (Some (update_metrics report mc)) (self st).
Proof.
  intros Hi Hs He.
  pose proof (run_cycle_try_self env st) as Ht.
  destruct (run_cycle_try env st) as [r st'] eqn:E. simpl in He. subst r.
  now rewrite (run_cycle_completed env st st').
Qed.

Lemma failing_cycles_count envs : forall st mc,
  is_initialized (self st) = true -> emergency_stop (self st) = false ->
  metrics_collector (self st) = Some mc ->
  all_cycles_fail envs st -> Forall counter_answers envs ->
  error_count mc + Z.of_nat (length envs) <= 5 ->
  is_initialized (self (cycles envs st)) = true
  /\ emergency_stop (self (cycles envs st)) = false
  /\ recorded_errors (self (cycles envs st)) =
       Some (error_count mc + Z.of_nat (length envs)).
Proof.
  induction envs as [| env envs IH]; intros st mc Hi Hs Hmc Hall Hans Hle.
  - rewrite cycles_nil. unfold recorded_errors. rewrite Hmc. simpl.
    unfold get_error_count. repeat split; try assumption. f_equal. lia.
  - destruct Hall as [Hf Hall]. apply Forall_cons in Hans as [Hans1 Hans].
    rewrite cycles_cons.
    pose proof (failed_cycle_self env st mc Hi Hs Hmc Hf Hans1) as Hself.
    simpl in Hself, Hle.
    assert ((5 <? error_count mc + 1) = false) as Hlt by (apply Z.ltb_ge; lia).
    rewrite Hlt in Hself.
    destruct (IH (snd (run_cycle env st)) (increment_error_count mc)) as (Hi' & Hs' & Hc');
      try assumption; try (rewrite Hself; simpl; assumption || reflexivity).
    + simpl. lia.
    + repeat split; try assumption. rewrite Hc'. simpl. f_equal. lia.
Qed.




(** C2.  On an initialized bot that is not stopped, a call of [run_cycle]
    in which every stage succeeds returns and leaves the error count at 0,
    whatever it was before; the failures counted before it no longer count:
    up to five failing cycles after it leave the emergency stop off, the
    collector counting just these. *)
Theorem successful_cycle_resets_error_count (env : Env) (st : State) :
  is_initialized (self st) = true ->
  emergency_stop (self st) = false ->
  fst (run_cycle_try env st) = Ok tt ->
  let completed := snd (run_cycle env st) in
  fst (run_cycle env st) = Ok tt
  /\ recorded_errors (self completed) = Some 0
  /\ emergency_stop (self completed) = false
  /\ (forall later : list Env,
        all_cycles_fail later completed -> Forall counter_answers later ->
        (length later <= 5)%nat ->
        emergency_stop (self (cycles later completed)) = false
        /\ recorded_errors (self (cycles later completed)) = Some (Z.of_nat (length later))).
Proof.
  intros Hi Hs Hok completed.
  destruct (completed_cycle_self env st Hi Hs Hok) as (mc & report & Hmc & Hdone & Hself).
  assert (Hret : fst (run_cycle env st) = Ok tt).
  { destruct (run_cycle_try env st) as [r st'] eqn:E. simpl in Hok. subst r.
    now rewrite (run_cycle_completed env st st'). }
  assert (Hmc' : metrics_collector (self completed) = Some (update_metrics report mc))
    by (unfold completed; now rewrite Hself).
  assert (Hzero : error_count (update_metrics report mc) = 0)
    by (simpl; now rewrite Hdone).
  assert (Hi' : is_initialized (self completed) = true)
    by (unfold completed; now rewrite Hself).
  assert (Hs' : emergency_stop (self completed) = false)
    by (unfold completed; now rewrite Hself).
  split; [exact Hret | split; [| split; [exact Hs' |]]].
  - unfold recorded_errors. rewrite Hmc'. simpl. now rewrite Hdone.
  - intros later Hall Hans Hlen.
    destruct (failing_cycles_count later completed _ Hi' Hs' Hmc' Hall Hans) as (_ & Hs'' & Hc).
    + rewrite Hzero. lia.
    + split; [exact Hs'' |]. rewrite Hc, Hzero. f_equal.
Qed.

(** Five failing cycles, a cycle in which every stage succeeds, then five
    more failing cycles: the emergency stop is still off. *)
Lemma successful_cycle_resets_error_count_witness :
  let five_failures := cycles (replicate 5 no_snapshot) started in
  let completed := snd (run_cycle calm five_failures) in
  recorded_errors (self five_failures) = Some 5
  /\ fst (run_cycle calm five_failures) = Ok tt
  /\ recorded_errors (self completed) = Some 0
  /\ emergency_stop (self completed) = false
  /\ emergency_stop (self (cycles (replicate 5 no_snapshot) completed)) = false
  /\ recorded_errors (self (cycles (replicate 5 no_snapshot) completed)) = Some 5.
Proof.
  intros five_failures completed.
  destruct (successful_cycle_resets_error_count calm five_failures)
    as (Hret & Hzero & Hoff & Hlater); try (vm_compute; reflexivity).
  destruct (Hlater (replicate 5 no_snapshot)) as [Hoff' Hcount].
  - cbv [replicate all_cycles_fail].
    repeat split; exists timeout; vm_compute; reflexivity.
  - repeat constructor.
  - simpl. lia.
  - split; [vm_compute; reflexivity |]. repeat split; assumption.
Defined.

(** C7, amended.  On a bot with any history since its creation:
    [is_initialized] holds exactly when some call of [initialize] has
    returned.  Called before that, [run_cycle] raises the not-initialized
    error and leaves the bot untouched.  Called after, it catches the
    exception a stage raises, logs it and hands it to [_handle_cycle_error];
    it returns normally when the handler does, that is when the collector
    answers the two calls of the handler, and otherwise lets the exception of
    that call out to its caller.  So on an initialized bot [run_cycle] raises
    exactly when the bot is not stopped, a stage raises and one of the two
    calls of the handler raises. *)
Theorem run_cycle_contains_stage_failures (c : Config) (ops : list Op) (env : Env) :
  let st := snd (run ops (__init__ c)) in
  let handled :=
    match metrics_increment_error_count env, metrics_get_error_count env with
    | Some e, _ => Raise e
    | None, Some e => Raise e
    | None, None => Ok tt
    end in
  (is_initialized (self st) = true <-> exists i, initialize_completed ops (__init__ c) i)
  /\ (is_initialized (self st) = false -> run_cycle env st = (Raise not_initialized, st))
  /\ (is_initialized (self st) = true -> emergency_stop (self st) = true ->
      fst (run_cycle env st) = Ok tt)
  /\ (is_initialized (self st) = true -> emergency_stop (self st) = false ->
      forall st', run_cycle_try env st = (Ok tt, st') -> run_cycle env st = (Ok tt, st'))
  /\ (is_initialized (self st) = true -> emergency_stop (self st) = false ->
      forall e st', run_cycle_try env st = (Raise e, st') ->
        run_cycle env st =
          _handle_cycle_error env e
            {| self := self st'; trace := trace st' ++ [Logged ERROR (MsgCycleFailed e)] |}
        /\ fst (run_cycle env st) = handled)
  /\ (is_initialized (self st) = true -> counter_answers env ->
      fst (run_cycle env st) = Ok tt)
  /\ (is_initialized (self st) = true ->
      ((exists e, fst (run_cycle env st) = Raise e) <->
       emergency_stop (self st) = false /\ cycle_fails env st /\ ~ counter_answers env)).
Proof.
  intros st handled.
  assert (Hset : collaborators_set (self st))
    by (apply run_collaborators, init_collaborators).
  assert (Hres := run_cycle_result env st Hset). fold handled in Hres.
  split; [| split; [| split; [| split; [| split; [| split]]]]].
  - unfold st. rewrite run_initialized. simpl. split; [| auto].
    intros [? | ?]; [discriminate | assumption].
  - apply run_cycle_before_initialize.
  - intros Hi Hs. now rewrite run_cycle_skipped.
  - intros Hi Hs st' Ht. now apply run_cycle_completed.
  - intros Hi Hs e st' Ht. split; [now apply run_cycle_failed |].
    rewrite Hres, Hs, Ht by assumption. reflexivity.
  - intros Hi Hans. now apply run_cycle_returns.
  - intros Hi. rewrite Hres by assumption. unfold cycle_fails, counter_answers, handled.
    destruct (emergency_stop (self st)).
    { split; [intros [e [=]] | intros [[=] _]]. }
    destruct (run_cycle_try env st) as [[[] | e] st']; simpl.
    { split; [intros [e [=]] | intros (_ & [e [=]] & _)]. }
    destruct (metrics_increment_error_count env) as [e1 |],
      (metrics_get_error_count env) as [e2 |]; simpl.
    + split; [| eauto]. intros _. repeat split; eauto. intros [[=] _].
    + split; [| eauto]. intros _. repeat split; eauto. intros [[=] _].
    + split; [| eauto]. intros _. repeat split; eauto. intros [_ [=]].
    + split; [intros [e' [=]] |]. intros (_ & _ & Hn). now destruct Hn.
Qed.

(** C7 as stated fails: on the sample bot, initialized, a cycle whose
    snapshot cannot be fetched and whose failure the collector cannot count
    lets the exception of [increment_error_count] out of [run_cycle]. *)
Lemma handler_failure_escapes_counterexample :
  initialize_completed [OpInitialize calm] (__init__ sample_config) 0
  /\ started = snd (run [OpInitialize calm] (__init__ sample_config))
  /\ is_initialized (self started) = true
  /\ fst (run_cycle_try broken_counter started) = Raise timeout
  /\ fst (run_cycle broken_counter started) = Raise metrics_down
  /\ metrics_down <> not_initialized.
Proof.
  split; [| split; [| split; [| split; [| split]]]].
  - split; [now exists calm | vm_compute; reflexivity].
  - vm_compute. reflexivity.
  - vm_compute. reflexivity.
  - vm_compute. reflexivity.
  - vm_compute. reflexivity.
  - discriminate.
Qed.

(** C9.  Once [emergency_stop] is set, it stays set through [initialize],
    [run_cycle], [_handle_cycle_error], [cleanup], and any sequence of them,
    whether they return or raise. *)
Theorem emergency_stop_is_monotonic (st : State) :
  emergency_stop (self st) = true ->
  (forall env, emergency_stop (self (snd (initialize env st))) = true)
  /\ (forall env, emergency_stop (self (snd (run_cycle env st))) = true)
  /\ (forall env error, emergency_stop (self (snd (_handle_cycle_error env error st))) = true)
  /\ (forall env, emergency_stop (self (snd (cleanup env st))) = true)
  /\ (forall ops, emergency_stop (self (snd (run ops st))) = true).
Proof.
  intros Hs. repeat split; intros.
  - now apply (preserves_initialize (fun b => emergency_stop b = true)).
  - now apply (preserves_run_cycle (fun b => emergency_stop b = true)).
  - now apply (preserves_handle_cycle_error (fun b => emergency_stop b = true)).
  - now apply (preserves_cleanup (fun b => emergency_stop b = true)).
  - now apply (preserves_run (fun b => emergency_stop b = true)).
Qed.

(** The sample bot after six failed cycles. *)
Lemma emergency_stop_is_monotonic_witness :
  let stopped := cycles (replicate 6 no_snapshot) started in
  (forall env, emergency_stop (self (snd (initialize env stopped))) = true)
  /\ (forall env, emergency_stop (self (snd (run_cycle env stopped))) = true)
  /\ (forall env error,
        emergency_stop (self (snd (_handle_cycle_error env error stopped))) = true)
  /\ (forall env, emergency_stop (self (snd (cleanup env stopped))) = true)
  /\ (forall ops, emergency_stop (self (snd (run ops stopped))) = true).
Proof.
  apply (emergency_stop_is_monotonic (cycles (replicate 6 no_snapshot) started)).
  vm_compute. reflexivity.
Defined.

(** * Tear-down *)

Lemma initialize_calls env st :
  fst (initialize env st) = Ok tt ->
  calls_of (events_since st (snd (initialize env st))) =
    [ExchangeInitialize; DataInitialize; MetricsInitialize;
     ExchangeTestConnections; DataTestConnection].
Proof.
  unfold initialize, _perform_safety_checks, the_exchange_manager, the_data_manager,
    try_except, bind, await, await_value, log, emit, modify, gets, lift, ret, raise,
    events_since.
  simpl.
  destruct (exchange_initialize env), (data_initialize env), (metrics_initialize env),
    (exchange_test_connections env), (data_test_connection env); simpl;
    try destruct (ntp_required (ops (config (self st)))); simpl; try discriminate;
    intros _; rewrite <- !app_assoc, drop_app_length; reflexivity.
Qed.

(** Closes one case of [cleanup]: which collaborators the object holds and
    how each release ends. *)
Ltac cleanup_case :=
  repeat split; intros;
  repeat match goal with
         | H : is_Some None |- _ => destruct H as [? H]; discriminate H
         | H : _ ∈ _ |- _ => rewrite ?elem_of_cons, ?elem_of_nil in H; revert H
         end;
  try discriminate; try reflexivity; try congruence; try solve [intuition discriminate];
  eauto;
  try solve [repeat first [apply sublist_nil_l | apply sublist_skip | apply sublist_cons]];
  try match goal with
      | |- _ ∉ _ =>
          let H := fresh in
          intros H; rewrite ?elem_of_cons, ?elem_of_nil in H; intuition discriminate
      end.

(** C8, amended.  [cleanup] releases the collaborators in the order of their
    acquisition: exchange manager, data manager, metrics collector, each one
    only if the object holds it.  The first release that fails ends
    [cleanup]: its exception goes to the caller, nothing is logged about it,
    and the collaborators after it get no release call.  The object itself is
    left as it was. *)
Theorem cleanup_releases_in_acquisition_order (env : Env) (st : State) :
  let result := fst (cleanup env st) in
  let events := events_since st (snd (cleanup env st)) in
  let calls := calls_of events in
  self (snd (cleanup env st)) = self st
  /\ calls = fst (until_failure (releases env (self st)))
  /\ result = snd (until_failure (releases env (self st)))
  /\ events = [Logged INFO MsgCleaningUp] ++ (Called <$> calls)
              ++ (if is_ok result then [Logged INFO MsgCleanedUp] else [])
  /\ sublist calls [ExchangeCleanup; DataCleanup; MetricsCleanup]
  /\ (ExchangeCleanup ∈ calls -> is_Some (exchange_manager (self st)))
  /\ (DataCleanup ∈ calls -> is_Some (data_manager (self st)))
  /\ (MetricsCleanup ∈ calls -> is_Some (metrics_collector (self st)))
  /\ (result = Ok tt -> calls = fst <$> releases env (self st))
  /\ (forall e, is_Some (exchange_manager (self st)) -> exchange_cleanup env = Some e ->
      result = Raise e /\ calls = [ExchangeCleanup])
  /\ (forall e, is_Some (data_manager (self st)) -> data_cleanup env = Some e ->
      result <> Ok tt /\ MetricsCleanup ∉ calls)
  /\ (is_Some (exchange_manager (self st)) ->
      is_Some (data_manager (self st)) ->
      is_Some (metrics_collector (self st)) ->
      match exchange_cleanup env, data_cleanup env, metrics_cleanup env with
      | Some e, _, _ =>
          result = Raise e
          /\ events = [Logged INFO MsgCleaningUp; Called ExchangeCleanup]
      | None, Some e, _ =>
          result = Raise e
          /\ events = [Logged INFO MsgCleaningUp; Called ExchangeCleanup; Called DataCleanup]
      | None, None, Some e =>
          result = Raise e
          /\ events = [Logged INFO MsgCleaningUp; Called ExchangeCleanup; Called DataCleanup;
                       Called MetricsCleanup]
      | None, None, None =>
          result = Ok tt
          /\ events = [Logged INFO MsgCleaningUp; Called ExchangeCleanup; Called DataCleanup;
                       Called MetricsCleanup; Logged INFO MsgCleanedUp]
      end).
Proof.
  intros result events calls.
  split; [now apply (preserves_cleanup (fun b => b = self st)) |].
  unfold calls, events, result, events_since, releases, cleanup, bind, await, bind, gets,
    log, emit, ret, raise.
  simpl.
  destruct (exchange_manager (self st)) as [em |]; simpl;
    [destruct (exchange_cleanup env) as [e1 |]; simpl |];
    (destruct (data_manager (self st)) as [dm |]; simpl;
     [destruct (data_cleanup env) as [e2 |]; simpl |]);
    (destruct (metrics_collector (self st)) as [mc |]; simpl;
     [destruct (metrics_cleanup env) as [e3 |]; simpl |]);
    rewrite <- ?app_assoc, ?drop_app_length; simpl; cleanup_case.
Qed.

(** A bot whose start-up failed at the data manager holds no metrics
    collector: [cleanup] releases the exchange manager and the data manager,
    and makes no call on the collector. *)
Lemma cleanup_releases_in_acquisition_order_witness :
  metrics_collector (self half_started) = None
  /\ self (snd (cleanup calm half_started)) = self half_started
  /\ calls_of (events_since half_started (snd (cleanup calm half_started))) =
       [ExchangeCleanup; DataCleanup]
  /\ fst (cleanup calm half_started) = Ok tt.
Proof.
  destruct (cleanup_releases_in_acquisition_order calm half_started)
    as (Hself & Hcalls & Hresult & _).
  split; [vm_compute; reflexivity |].
  split; [exact Hself |].
  split; [rewrite Hcalls | rewrite Hresult]; vm_compute; reflexivity.
Defined.

(** C8 as stated fails: the sample bot acquires exchange, data, metrics and
    releases them in that same order, not the reverse; and when the exchange
    manager fails to close, [cleanup] raises and calls neither of the other
    two. *)
Lemma cleanup_order_counterexample :
  calls_of (events_since (__init__ sample_config) started) =
    [ExchangeInitialize; DataInitialize; MetricsInitialize;
     ExchangeTestConnections; DataTestConnection]
  /\ fst (cleanup calm started) = Ok tt
  /\ calls_of (events_since started (snd (cleanup calm started))) =
       [ExchangeCleanup; DataCleanup; MetricsCleanup]
  /\ calls_of (events_since started (snd (cleanup calm started))) <>
       [MetricsCleanup; DataCleanup; ExchangeCleanup]
  /\ fst (cleanup stuck_exchange started) = Raise timeout
  /\ calls_of (events_since started (snd (cleanup stuck_exchange started))) =
       [ExchangeCleanup].
Proof. vm_compute. repeat split. discriminate. Qed.

(** * The risk gate *)

Lemma Qltb_reflect (x y : Q) : reflect (x < y)%Q (Qltb x y).
Proof.
  destruct (Qltb x y) eqn:E; constructor.
  - now apply Qltb_lt.
  - intros H. apply Qltb_lt in H. congruence.
Qed.

(** C3.  [_assess_risks] returns an assessment whose [approved_signals] is
    the whole input list when [can_trade] and the empty list otherwise; so it
    is a sublist of the input, and non-empty only when [can_trade]. *)
Theorem approved_signals_all_or_nothing
    (env : Env) (signals : list Signal) (market_data : MarketData) (st : State) :
  exists assessment,
    fst (_assess_risks env signals market_data st) = Ok assessment
    /\ (can_trade assessment = true -> approved_signals assessment = signals)
    /\ (can_trade assessment = false -> approved_signals assessment = [])
    /\ sublist (approved_signals assessment) signals
    /\ (approved_signals assessment <> [] -> can_trade assessment = true).
Proof.
  rewrite assess_risks_run. cbv zeta. eexists. split; [reflexivity |]. simpl.
  destruct (negb _ && negb _); repeat split; try congruence.
  - reflexivity.
  - apply sublist_nil_l.
Qed.

(** C4.  [_assess_risks] queries exposure and daily P&L on every call, and
    [can_trade] is false exactly when the exposure is above
    [global_exposure_cap_pct] or the daily P&L is below
    [-daily_loss_cap_pct]; each failed gate leaves its reason, both when both
    fail.  Exposure 21 with cap 20 blocks trading with the exposure reason;
    daily P&L -6 with loss cap 5 blocks trading. *)
Theorem risk_gates_both_evaluated
    (env : Env) (signals : list Signal) (market_data : MarketData) (st : State) :
  let exposure := calculate_current_exposure env in
  let pnl := calculate_daily_pnl env in
  let cap := global_exposure_cap_pct (risk (config (self st))) in
  let loss_cap := daily_loss_cap_pct (risk (config (self st))) in
  exists assessment,
    fst (_assess_risks env signals market_data st) = Ok assessment
    /\ calls_of (events_since st (snd (_assess_risks env signals market_data st))) =
         [CalculateCurrentExposure; CalculateDailyPnl]
    /\ current_exposure assessment = exposure
    /\ daily_pnl assessment = pnl
    /\ (can_trade assessment = false <-> (cap < exposure)%Q \/ (pnl < - loss_cap)%Q)
    /\ ((cap < exposure)%Q -> ExposureTooHigh exposure ∈ reasons assessment)
    /\ ((pnl < - loss_cap)%Q -> DailyLossLimitReached pnl ∈ reasons assessment)
    /\ ((cap < exposure)%Q -> (pnl < - loss_cap)%Q ->
        reasons assessment = [ExposureTooHigh exposure; DailyLossLimitReached pnl])
    /\ ((exposure == 21)%Q -> (cap == 20)%Q ->
        can_trade assessment = false /\ ExposureTooHigh exposure ∈ reasons assessment)
    /\ ((pnl == -6)%Q -> (loss_cap == 5)%Q -> can_trade assessment = false).
Proof.
  intros exposure pnl cap loss_cap.
  rewrite assess_risks_run. cbv zeta. fold exposure pnl cap loss_cap.
  eexists. split; [reflexivity |]. simpl.
  unfold events_since. simpl. rewrite drop_app_length.
  destruct (Qltb_reflect cap exposure) as [He | He],
    (Qltb_reflect pnl (- loss_cap)) as [Hp | Hp]; simpl;
    (repeat split; try tauto; try discriminate; try set_solver;
     try (intros; exfalso; lra)).
Qed.

(** C10.  In the assessment [_assess_risks] returns, [reasons] is empty
    exactly when [can_trade]; otherwise it holds one entry per failed gate,
    the exposure reason before the daily-loss reason. *)
Theorem reasons_match_failed_gates
    (env : Env) (signals : list Signal) (market_data : MarketData) (st : State) :
  let exposure := calculate_current_exposure env in
  let pnl := calculate_daily_pnl env in
  let cap := global_exposure_cap_pct (risk (config (self st))) in
  let loss_cap := daily_loss_cap_pct (risk (config (self st))) in
  exists assessment,
    fst (_assess_risks env signals market_data st) = Ok assessment
    /\ (reasons assessment = [] <-> can_trade assessment = true)
    /\ ((cap < exposure)%Q -> (pnl < - loss_cap)%Q ->
        reasons assessment = [ExposureTooHigh exposure; DailyLossLimitReached pnl])
    /\ ((cap < exposure)%Q -> ~ (pnl < - loss_cap)%Q ->
        reasons assessment = [ExposureTooHigh exposure])
    /\ (~ (cap < exposure)%Q -> (pnl < - loss_cap)%Q ->
        reasons assessment = [DailyLossLimitReached pnl])
    /\ (~ (cap < exposure)%Q -> ~ (pnl < - loss_cap)%Q ->
        reasons assessment = []).
Proof.
  intros exposure pnl cap loss_cap.
  rewrite assess_risks_run. cbv zeta. fold exposure pnl cap loss_cap.
  eexists. split; [reflexivity |]. simpl.
  destruct (Qltb_reflect cap exposure) as [He | He],
    (Qltb_reflect pnl (- loss_cap)) as [Hp | Hp]; simpl;
    repeat split; try tauto; try discriminate.
Qed.

(** The two gates on the sample bot (caps 20 and 5). *)
Example exposure_breach_blocks_trading :
  exists assessment,
    fst (_assess_risks (with_portfolio 21 0) [] sample_market started) = Ok assessment
    /\ can_trade assessment = false
    /\ reasons assessment = [ExposureTooHigh 21].
Proof. eexists. vm_compute. repeat split. Qed.

Example daily_loss_blocks_trading :
  exists assessment,
    fst (_assess_risks (with_portfolio 0 (-6)) [] sample_market started) = Ok assessment
    /\ can_trade assessment = false
    /\ reasons assessment = [DailyLossLimitReached (-6)].
Proof. eexists. vm_compute. repeat split. Qed.

(** * Further properties of the cycle *)

(** X1.  A cycle in which every stage succeeds returns normally, leaves the
    emergency stop off, and changes nothing of the object but what its
    metrics collector holds. *)
Theorem completed_cycle_changes_only_the_collector (env : Env) (st : State) :
  is_initialized (self st) = true ->
  emergency_stop (self st) = false ->
  fst (run_cycle_try env st) = Ok tt ->
  let completed := snd (run_cycle env st) in
  fst (run_cycle env st) = Ok tt
  /\ emergency_stop (self completed) = false
  /\ self completed = set_metrics_collector (metrics_collector (self completed)) (self st).
Proof.
  intros Hi Hs Hok completed.
  destruct (completed_cycle_self env st Hi Hs Hok) as (mc & report & Hmc & _ & Hself).
  unfold completed.
  destruct (run_cycle_try env st) as [r st'] eqn:E. simpl in Hok. subst r.
  rewrite (run_cycle_completed env st st') in * by assumption. simpl in *.
  rewrite Hself. simpl. auto.
Qed.

(** A successful cycle after five failed ones. *)
Lemma completed_cycle_changes_only_the_collector_witness :
  let five_failures := cycles (replicate 5 no_snapshot) started in
  let completed := snd (run_cycle calm five_failures) in
  fst (run_cycle calm five_failures) = Ok tt
  /\ emergency_stop (self completed) = false
  /\ self completed = set_metrics_collector (metrics_collector (self completed))
                        (self five_failures).
Proof.
  apply (completed_cycle_changes_only_the_collector calm
           (cycles (replicate 5 no_snapshot) started));
    vm_compute; reflexivity.
Defined.

Lemma execute_loop_calls env todo : forall st,
  exists evs,
    execute_loop env todo st = (Ok tt, {| self := self st; trace := trace st ++ evs |})
    /\ calls_of evs = ExecuteSingleTrade <$> todo.
Proof.
  induction todo as [| s todo IH]; intros st.
  - exists []. simpl. rewrite app_nil_r. now destruct st.
  - simpl. unfold bind, try_except, _execute_single_trade, await, bind, log, emit, ret, raise.
    simpl.
    destruct (execute_single_trade env s) as [e |]; simpl;
      match goal with |- context [execute_loop env todo ?st1] =>
        destruct (IH st1) as (evs & -> & Hc) end; simpl;
      rewrite <- !app_assoc; simpl; eexists; (split; [reflexivity |]);
      simpl; now rewrite Hc.
Qed.

(** X2.  [_execute_trades] never raises and leaves the object as it was: it
    calls [_execute_single_trade] once for every approved signal, in order,
    whatever the earlier trades did. *)
Theorem execute_trades_isolates_failures
    (env : Env) (signals : list Signal) (risk_assessment : RiskAssessment) (st : State) :
  fst (_execute_trades env signals risk_assessment st) = Ok tt
  /\ self (snd (_execute_trades env signals risk_assessment st)) = self st
  /\ calls_of (events_since st (snd (_execute_trades env signals risk_assessment st))) =
       ExecuteSingleTrade <$> approved_signals risk_assessment.
Proof.
  split; [apply execute_trades_returns | split; [apply execute_trades_self |]].
  unfold _execute_trades, bind, gets, log, emit. simpl.
  destruct (String.eqb (mode (self st)) "paper"); simpl;
    match goal with |- context [execute_loop env ?l ?st1] =>
      destruct (execute_loop_calls env l st1) as (evs & -> & Hc) end; simpl;
    unfold events_since; simpl; rewrite <- app_assoc, drop_app_length; simpl;
    exact Hc.
Qed.

(** X3.  [initialize] returns exactly when none of the three
    sub-initializations and neither of the two connection probes raises, and
    only then sets [is_initialized]; otherwise it re-raises and leaves
    [is_initialized] as it was.  What a probe answers is not looked at. *)
Theorem initialize_returns_unless_a_call_raises (env : Env) (st : State) :
  let sub_initializations :=
    [exchange_initialize env; data_initialize env; metrics_initialize env] in
  let probes :=
    [is_ok (exchange_test_connections env); is_ok (data_test_connection env)] in
  (fst (initialize env st) = Ok tt <->
   Forall (fun o => o = None) sub_initializations /\ Forall (fun b => b = true) probes)
  /\ (fst (initialize env st) = Ok tt -> is_initialized (self (snd (initialize env st))) = true)
  /\ (fst (initialize env st) <> Ok tt ->
      is_initialized (self (snd (initialize env st))) = is_initialized (self st)).
Proof.
  unfold initialize, _perform_safety_checks, the_exchange_manager, the_data_manager,
    try_except, bind, await, await_value, log, emit, modify, gets, lift, ret, raise.
  simpl.
  destruct (exchange_initialize env), (data_initialize env), (metrics_initialize env),
    (exchange_test_connections env), (data_test_connection env); simpl;
    try destruct (ntp_required (ops (config (self st)))); simpl;
    (split; [split; [intros [=] | intros [H1 H2]] | split; [intros [=] | intros H]]);
    repeat match goal with
           | H : Forall _ (_ :: _) |- _ => apply Forall_cons in H as [? H]
           end;
    try discriminate; try reflexivity; try congruence;
    repeat constructor.
Qed.

(** X4.  With the portfolio queries as the source writes them (both return
    0.0) and caps that are not negative, the risk gate approves every signal. *)
Theorem placeholders_as_written_never_block
    (env : Env) (signals : list Signal) (market_data : MarketData) (st : State) :
  (0 <= global_exposure_cap_pct (risk (config (self st))))%Q ->
  (0 <= daily_loss_cap_pct (risk (config (self st))))%Q ->
  exists assessment,
    fst (_assess_risks (as_written env) signals market_data st) = Ok assessment
    /\ can_trade assessment = true
    /\ reasons assessment = []
    /\ approved_signals assessment = signals.
Proof.
  intros Hcap Hloss. rewrite assess_risks_run. cbv zeta. simpl.
  eexists. split; [reflexivity |]. simpl.
  destruct (Qltb_reflect (global_exposure_cap_pct (risk (config (self st)))) 0) as [He | He];
    [exfalso; lra |].
  destruct (Qltb_reflect 0 (- daily_loss_cap_pct (risk (config (self st))))) as [Hp | Hp];
    [exfalso; lra |].
  simpl. auto.
Qed.

(** The sample bot. *)
Lemma placeholders_as_written_never_block_witness :
  exists assessment,
    fst (_assess_risks (as_written calm) [] sample_market started) = Ok assessment
    /\ can_trade assessment = true
    /\ reasons assessment = []
    /\ approved_signals assessment = [].
Proof.
  apply (placeholders_as_written_never_block calm [] sample_market started);
    vm_compute; discriminate.
Defined.

(** The events a call added hold no [ExecuteSingleTrade]. *)
Ltac no_trade_call :=
  unfold events_since; simpl; rewrite <- ?app_assoc, ?drop_app_length, ?drop_all; simpl;
  rewrite ?elem_of_cons, elem_of_nil; intuition discriminate.

(** The same once the error handler has run, [Hmc] telling what
    [self.metrics_collector] is. *)
Ltac no_trade_call_handled Hmc :=
  unfold await, await_value, bind, gets, modify, log, emit, lift, ret, raise; simpl;
  rewrite Hmc; simpl;
  repeat match goal with
         | |- context [match metrics_increment_error_count ?env with _ => _ end] =>
             destruct (metrics_increment_error_count env); simpl
         | |- context [match metrics_get_error_count ?env with _ => _ end] =>
             destruct (metrics_get_error_count env); simpl
         | |- context [5 <? ?n] => destruct (5 <? n); simpl
         end;
  no_trade_call.

(** X5.  Whenever the exposure is above its cap or the daily P&L below its
    loss cap, [run_cycle] executes no trade. *)
Theorem blocked_cycle_places_no_trade (env : Env) (st : State) :
  let cap := global_exposure_cap_pct (risk (config (self st))) in
  let loss_cap := daily_loss_cap_pct (risk (config (self st))) in
  (cap < calculate_current_exposure env)%Q
  \/ (calculate_daily_pnl env < - loss_cap)%Q ->
  forall signal,
    ExecuteSingleTrade signal ∉ calls_of (events_since st (snd (run_cycle env st))).
Proof.
  intros cap loss_cap Hblocked signal.
  assert (Hgate : negb (Qltb cap (calculate_current_exposure env))
                  && negb (Qltb (calculate_daily_pnl env) (- loss_cap)) = false).
  { destruct (Qltb_reflect cap (calculate_current_exposure env)),
      (Qltb_reflect (calculate_daily_pnl env) (- loss_cap)); simpl; tauto. }
  destruct (metrics_collector (self st)) as [mc |] eqn:Hmc.
  all: unfold run_cycle, bind at 1, gets; simpl.
  all: destruct (is_initialized (self st)); simpl; [| no_trade_call].
  all: unfold bind at 1; simpl.
  all: destruct (emergency_stop (self st)); simpl; [no_trade_call |].
  all: unfold try_except, run_cycle_try.
  all: unfold bind at 1, the_data_manager, bind at 1, gets; simpl.
  all: unfold _handle_cycle_error, the_metrics_collector.
  all: destruct (data_manager (self st)); simpl; [| no_trade_call_handled Hmc].
  all: unfold bind at 1, await_value, bind at 1, emit, lift; simpl.
  all: destruct (data_get_latest_data env) as [md | e]; simpl;
    [| no_trade_call_handled Hmc].
  all: unfold bind at 1.
  all: match goal with |- context [_generate_signals ?m ?s] =>
         pose proof (generate_signals_state m s) as Hg;
         destruct (_generate_signals m s) as [[signals | e] st2]; simpl in Hg; subst st2
       end; [| no_trade_call_handled Hmc].
  all: unfold bind at 1; rewrite assess_risks_run; cbv zeta; simpl.
  all: fold cap loss_cap; rewrite Hgate.
  all: unfold bind at 1; simpl.
  all: unfold bind at 1; unfold bind at 1; unfold gets at 1; simpl; rewrite Hmc; simpl.
  - unfold bind at 1, await, bind at 1, emit, ret, raise. simpl.
    destruct (metrics_update_metrics env); simpl;
      [no_trade_call_handled Hmc | unfold modify; no_trade_call].
  - no_trade_call_handled Hmc.
Qed.

(** Exposure 21 against the cap 20 of the sample bot. *)
Lemma blocked_cycle_places_no_trade_witness :
  calls_of (events_since started (snd (run_cycle (with_portfolio 21 0) started))) =
    [DataGetLatestData; CalculateCurrentExposure; CalculateDailyPnl;
     MetricsUpdateMetrics {| cycle_completed := true;
                             signals_generated := 2;
                             trades_executed := 0 |}]
  /\ forall signal,
       ExecuteSingleTrade signal ∉
         calls_of (events_since started (snd (run_cycle (with_portfolio 21 0) started))).
Proof.
  split; [vm_compute; reflexivity |].
  apply (blocked_cycle_places_no_trade (with_portfolio 21 0) started).
  left. vm_compute. reflexivity.
Defined.
